(** * Media summarizer page script (app.py): a shallow embedding

    The application is one Streamlit page script.  Every user interaction
    re-executes the script top to bottom against the current widget values;
    the script renders three tabs (video, image, text) and, when one of the
    three buttons was pressed, drives one request against two remote
    collaborators: the file staging service ([upload_file], [get_file]) and
    the model agent ([Agent.run]).

    The embedding keeps the script's shape.  Python [str] values are lists of
    Unicode code points, [bytes] values are lists of bytes, the effects of the
    script (scratch files, rendered elements, remote calls, sleeping,
    exceptions, a loop that may not end) live in a small state-and-exception
    monad with fuel for the one unbounded loop. *)

From Stdlib Require Import NArith Strings.Ascii Strings.Byte.
From stdpp Require Import base option list strings gmap sets.

Set Default Proof Using "Type".

(** ** Python strings *)

Module PyStr.

(** A Python [str]: a sequence of code points. *)
Definition str : Type := list N.

(** A string literal of the script (the literals used below are ASCII). *)
Fixpoint lit (s : string) : str :=
  match s with
  | EmptyString => []
  | String c s' => N_of_ascii c :: lit s'
  end.

(** [bool(s)] for a [str]: the empty string is falsy, any other is truthy. *)
Definition truthy (s : str) : bool :=
  match s with
  | [] => false
  | _ :: _ => true
  end.

(** The code points [str.strip()] removes when called without argument
    (CPython's [Py_UNICODE_ISSPACE]). *)
Definition isspace (c : N) : bool :=
  ((0x09 <=? c) && (c <=? 0x0D) || (0x1C <=? c) && (c <=? 0x20)
   || (c =? 0x85) || (c =? 0xA0) || (c =? 0x1680)
   || (0x2000 <=? c) && (c <=? 0x200A)
   || (c =? 0x2028) || (c =? 0x2029) || (c =? 0x202F) || (c =? 0x205F)
   || (c =? 0x3000))%N.

Fixpoint lstrip (s : str) : str :=
  match s with
  | [] => []
  | c :: s' => if isspace c then lstrip s' else s
  end.

Definition rstrip (s : str) : str := reverse (lstrip (reverse s)).

(** [s.strip()] *)
Definition strip (s : str) : str := rstrip (lstrip s).

(** [a in b] for two strings: [a] occurs in [b] as a contiguous run. *)
Definition occurs_in (a b : str) : Prop := ∃ pre post, b = pre ++ a ++ post.

(** Newline, and the indentation of a source line inside a triple-quoted
    literal. *)
Definition NL : str := [10%N].
Definition indent (n : nat) : str := replicate n 32%N.

End PyStr.
Export PyStr.

(** ** Exceptions and [bytes.decode("utf-8")] *)

(** A raised Python exception: its class name and [str(error)].  What the
    remote calls and the decoder raise are instances of subclasses of
    [Exception], the class the handlers of the script catch; interrupts of
    the interpreter itself are not part of the embedding. *)
Record exn := Exception { exn_class : string; exn_str : str }.

Inductive result (A : Type) : Type :=
| Ok (a : A)
| Err (e : exn).
Arguments Ok {A} a.
Arguments Err {A} e.

Module Utf8.

Definition bytes : Type := list byte.

Definition cont (b : N) : bool := ((0x80 <=? b) && (b <=? 0xBF))%N.

(** The payload of a continuation byte. *)
Definition low6 (b : N) : N := N.land b 0x3F.

Definition decode_error (reason : string) : exn :=
  Exception "UnicodeDecodeError" (lit reason).

(** Strict UTF-8 decoding of a list of byte values.  As in CPython, the
    second byte of a three or four byte sequence is range-checked so that
    overlong forms, surrogates and code points above U+10FFFF are refused.
    [exn_str] keeps the reason only (CPython's message also names the codec,
    the byte and its position). *)
Fixpoint decode_N (bs : list N) : result str :=
  match bs with
  | [] => Ok []
  | b0 :: r0 =>
    if (b0 <? 0x80)%N then
      match decode_N r0 with Ok s => Ok (b0 :: s) | Err e => Err e end
    else if (b0 <? 0xC2)%N then Err (decode_error "invalid start byte")
    else if (b0 <? 0xE0)%N then
      match r0 with
      | [] => Err (decode_error "unexpected end of data")
      | b1 :: r1 =>
        if cont b1 then
          match decode_N r1 with
          | Ok s => Ok ((N.land b0 0x1F * 64 + low6 b1)%N :: s)
          | Err e => Err e
          end
        else Err (decode_error "invalid continuation byte")
      end
    else if (b0 <? 0xF0)%N then
      match r0 with
      | [] => Err (decode_error "unexpected end of data")
      | b1 :: r1 =>
        if cont b1 && negb ((b0 =? 0xE0) && (b1 <? 0xA0))%N
                   && negb ((b0 =? 0xED) && (0xA0 <=? b1))%N then
          match r1 with
          | [] => Err (decode_error "unexpected end of data")
          | b2 :: r2 =>
            if cont b2 then
              match decode_N r2 with
              | Ok s =>
                  Ok (((N.land b0 0x0F * 64 + low6 b1) * 64 + low6 b2)%N :: s)
              | Err e => Err e
              end
            else Err (decode_error "invalid continuation byte")
          end
        else Err (decode_error "invalid continuation byte")
      end
    else if (b0 <? 0xF5)%N then
      match r0 with
      | [] => Err (decode_error "unexpected end of data")
      | b1 :: r1 =>
        if cont b1 && negb ((b0 =? 0xF0) && (b1 <? 0x90))%N
                   && negb ((b0 =? 0xF4) && (0x90 <=? b1))%N then
          match r1 with
          | [] => Err (decode_error "unexpected end of data")
          | b2 :: r2 =>
            if cont b2 then
              match r2 with
              | [] => Err (decode_error "unexpected end of data")
              | b3 :: r3 =>
                if cont b3 then
                  match decode_N r3 with
                  | Ok s =>
                      Ok ((((N.land b0 0x07 * 64 + low6 b1) * 64 + low6 b2)
                            * 64 + low6 b3)%N :: s)
                  | Err e => Err e
                  end
                else Err (decode_error "invalid continuation byte")
              end
            else Err (decode_error "invalid continuation byte")
          end
        else Err (decode_error "invalid continuation byte")
      end
    else Err (decode_error "invalid start byte")
  end.

(** [data.decode("utf-8")] *)
Definition decode (data : bytes) : result str := decode_N (Byte.to_N <$> data).

End Utf8.
Export Utf8.

(** ** The world the script runs in *)

(** A scratch file name handed out by [tempfile]: a generated stem and the
    suffix the script asked for. *)
Record path := Path { stem : nat; suffix : string }.

Global Instance path_eq_dec : EqDecision path.
Proof. solve_decision. Defined.

Global Instance path_countable : Countable path.
Proof.
  apply (inj_countable' (λ p, (stem p, suffix p)) (λ t, Path t.1 t.2)).
  by intros [].
Defined.

(** The handle the staging service returns: [processed.name] and
    [processed.state.name]. *)
Record file_handle := FileHandle { name : string; state_name : string }.

(** What the script has put on the page, in rendering order. *)
Inductive element : Type :=
| StVideo (p : path)
| StImage (p : path)
| StTitle (title : str)
| StHeader (title : str)
| StInfo (msg : str)
| StWarning (msg : str)
| StError (msg : str)
| StSubheader (title : str)
| StMarkdown (body : str).

(** What the script has done towards the outside, in order: the three remote
    calls and [time.sleep]. *)
Inductive event : Type :=
| UploadFile (p : path)
| GetFile (handle_name : string)
| AgentRun (prompt : str) (videos images : option (list file_handle))
| Sleep (seconds : nat).

(** [disk]: the temp directory; [page]: rendered elements; [trace]: remote
    calls and sleeps; [refreshed]: how many [get_file] calls the staging
    service has answered so far (the service's own state). *)
Record world := World {
  disk : gmap path bytes;
  page : list element;
  trace : list event;
  refreshed : nat
}.

(** The remote collaborators, as deterministic stubs.  [get_file_reply k] is
    the answer to the [k]-th refresh the service receives. *)
Record services := Services {
  upload_file_reply : path → result file_handle;
  get_file_reply : nat → string → result file_handle;
  agent_run_reply :
    str → option (list file_handle) → option (list file_handle) → result str
}.

(** ** The script monad: state, exceptions, and a loop that may not end *)

Inductive outcome (A : Type) : Type :=
| Done (a : A)
| Raised (e : exn)
| Hang.
Arguments Done {A} a.
Arguments Raised {A} e.
Arguments Hang {A}.

Definition script (A : Type) : Type := world → outcome A * world.

Global Instance script_ret : MRet script := λ A a w, (Done a, w).

Global Instance script_bind : MBind script := λ A B k m w,
  match m w with
  | (Done a, w') => k a w'
  | (Raised e, w') => (Raised e, w')
  | (Hang, w') => (Hang, w')
  end.

Definition raise {A} (e : exn) : script A := λ w, (Raised e, w).
Definition hang {A} : script A := λ w, (Hang, w).

Definition of_result {A} (r : result A) : script A :=
  match r with
  | Ok a => mret a
  | Err e => raise e
  end.

(** [try: body / except Exception as error: handler(error)] *)
Definition try_except {A} (body : script A) (handler : exn → script A)
  : script A := λ w,
  match body w with
  | (Raised e, w') => handler e w'
  | r => r
  end.

(** [try: body / finally: cleanup]: the cleanup runs however the body ends,
    and the body's outcome stands unless the cleanup raises itself.  A body
    that never ends never reaches it. *)
Definition try_finally {A} (body : script A) (cleanup : script unit)
  : script A := λ w,
  match body w with
  | (Hang, w') => (Hang, w')
  | (r, w') =>
    match cleanup w' with
    | (Done _, w'') => (r, w'')
    | (Raised e, w'') => (Raised e, w'')
    | (Hang, w'') => (Hang, w'')
    end
  end.

Definition modify (f : world → world) : script unit := λ w, (Done (), f w).

Definition set_disk (f : gmap path bytes → gmap path bytes) (w : world) :=
  World (f (disk w)) (page w) (trace w) (refreshed w).
Definition render (el : element) (w : world) :=
  World (disk w) (page w ++ [el]) (trace w) (refreshed w).
Definition record (e : event) (w : world) :=
  World (disk w) (page w) (trace w ++ [e]) (refreshed w).
Definition next_refresh (w : world) :=
  World (disk w) (page w) (trace w) (S (refreshed w)).

(** ** Library calls of the script *)

Module tempfile.

Definition fresh_stem (d : gmap path bytes) : nat :=
  fresh (set_map stem (dom d) : gset nat).

(** [NamedTemporaryFile(delete=False, suffix=...)]: a new empty file under a
    name that does not exist yet; the value is [temp.name]. *)
Definition NamedTemporaryFile (sfx : string) : script path := λ w,
  let p := Path (fresh_stem (disk w)) sfx in
  (Done p, set_disk (insert p []) w).

(** [temp.write(data)] on the file just opened. *)
Definition write (p : path) (data : bytes) : script unit :=
  modify (set_disk (alter (λ old, old ++ data) p)).

End tempfile.

(** [Path(p).unlink(missing_ok=True)] *)
Definition unlink_missing_ok (p : path) : script unit :=
  modify (set_disk (delete p)).

Module st.
Definition title (t : str) : script unit := modify (render (StTitle t)).
Definition header (t : str) : script unit := modify (render (StHeader t)).
Definition video (p : path) : script unit := modify (render (StVideo p)).
Definition image (p : path) : script unit := modify (render (StImage p)).
Definition info (msg : str) : script unit := modify (render (StInfo msg)).
Definition warning (msg : str) : script unit := modify (render (StWarning msg)).
Definition error (msg : str) : script unit := modify (render (StError msg)).
Definition subheader (t : str) : script unit := modify (render (StSubheader t)).
Definition markdown (b : str) : script unit := modify (render (StMarkdown b)).
End st.

Definition time_sleep (seconds : nat) : script unit :=
  modify (record (Sleep seconds)).

Section Remote.
Variable svc : services.

Definition upload_file (p : path) : script file_handle := λ w,
  of_result (upload_file_reply svc p) (record (UploadFile p) w).

Definition get_file (handle_name : string) : script file_handle := λ w,
  of_result (get_file_reply svc (refreshed w) handle_name)
            (next_refresh (record (GetFile handle_name) w)).

(** [multimodal_Agent.run(prompt, videos=..., images=...)]; the value is
    [response.content]. *)
Definition agent_run (prompt : str)
    (videos images : option (list file_handle))
  : script str := λ w,
  of_result (agent_run_reply svc prompt videos images)
            (record (AgentRun prompt videos images) w).

End Remote.

(** ** The page script *)

Inductive button : Type := AnalyzeVideo | AnalyzeImage | SummarizeText.

Global Instance button_eq_dec : EqDecision button.
Proof. solve_decision. Defined.

(** The widget values one execution of the script sees: the uploaders
    ([None]: nothing uploaded; an uploaded file object is always truthy), the
    text boxes, and the button whose press caused this execution, if any. *)
Record widgets := Widgets {
  video_file : option bytes;
  video_user_query : str;
  image_file : option bytes;
  image_user_query : str;
  text_input : str;
  text_file : option bytes;
  summary_prompt_input : str;
  pressed : option button
}.

(** [st.button(...)] for button [b]. *)
Definition st_button (ui : widgets) (b : button) : bool :=
  bool_decide (pressed ui = Some b).

(** The three f-strings, with the line breaks and indentation they have in
    the source. *)
Definition video_analysis_prompt (user_query : str) : str :=
  NL ++ indent 28 ++ lit "Analyze the uploaded video for content and context." ++ NL
  ++ indent 28 ++ lit "Respond to the following query using video insights and supplementary web research:" ++ NL
  ++ indent 28 ++ user_query ++ NL
  ++ NL
  ++ indent 28 ++ lit "Provide a detailed, user-friendly, and actionable response." ++ NL
  ++ indent 28.

Definition image_analysis_prompt (user_query : str) : str :=
  NL ++ indent 28 ++ lit "Analyze the uploaded image for content and context." ++ NL
  ++ indent 28 ++ lit "Perform OCR if text is present or describe the image otherwise." ++ NL
  ++ indent 28 ++ lit "Respond to the following query using image insights:" ++ NL
  ++ indent 28 ++ user_query ++ NL
  ++ NL
  ++ indent 28 ++ lit "Provide a detailed, user-friendly, and actionable response." ++ NL
  ++ indent 28.

Definition summary_prompt (summary_prompt_input text_content : str) : str :=
  NL ++ indent 24 ++ lit "Summarize the following text in a concise, clear, and user-friendly manner." ++ NL
  ++ indent 24
  ++ (if truthy (strip summary_prompt_input) then summary_prompt_input else lit "")
  ++ NL
  ++ indent 24 ++ NL
  ++ indent 24 ++ lit "Text to summarize:" ++ NL
  ++ indent 24 ++ text_content ++ NL
  ++ indent 24.

Definition PROCESSING : string := "PROCESSING".

Section Script.
Variable svc : services.

(** [while processed.state.name == "PROCESSING": time.sleep(1);
    processed = get_file(processed.name)].  The loop has no bound of its own;
    [fuel] bounds the iterations this evaluation is willing to follow, and
    running out of it is the outcome [Hang]. *)
Fixpoint poll (fuel : nat) (processed : file_handle) : script file_handle :=
  if decide (state_name processed = PROCESSING) then
    match fuel with
    | 0 => hang
    | S fuel' =>
      time_sleep 1;;
      processed' ← get_file svc (name processed);
      poll fuel' processed'
    end
  else mret processed.

(** Lines 72-95: the [try] suite of the Analyze Video button. *)
Definition video_attempt (fuel : nat) (user_query : str) (video_path : path)
  : script unit :=
  processed_video ← upload_file svc video_path;
  processed_video ← poll fuel processed_video;
  let analysis_prompt := video_analysis_prompt user_query in
  response ← agent_run svc analysis_prompt (Some [processed_video]) None;
  st.subheader (lit "Analysis Result");;
  st.markdown response.

(** Lines 71-101: [try] / [except Exception as error] / [finally]. *)
Definition analyze_video (fuel : nat) (user_query : str) (video_path : path)
  : script unit :=
  try_finally
    (try_except
       (video_attempt fuel user_query video_path)
       (λ error,
          st.error (lit "An error occurred during analysis: " ++ exn_str error)))
    (unlink_missing_ok video_path).

Definition video_tab (fuel : nat) (ui : widgets) : script unit :=
  match video_file ui with
  | Some video_bytes =>
    video_path ← tempfile.NamedTemporaryFile ".mp4";
    tempfile.write video_path video_bytes;;
    st.video video_path;;
    let user_query := video_user_query ui in
    if st_button ui AnalyzeVideo then
      if negb (truthy user_query) then
        st.warning (lit "Please enter a question or insight to analyze the video.")
      else analyze_video fuel user_query video_path
    else mret ()
  | None => st.info (lit "Upload a video file to begin analysis.")
  end.

(** Lines 129-153: the [try] suite of the Analyze Image button. *)
Definition image_attempt (fuel : nat) (user_query : str) (image_path : path)
  : script unit :=
  processed_image ← upload_file svc image_path;
  processed_image ← poll fuel processed_image;
  let analysis_prompt := image_analysis_prompt user_query in
  response ← agent_run svc analysis_prompt None (Some [processed_image]);
  st.subheader (lit "Analysis Result");;
  st.markdown response.

(** Lines 128-159. *)
Definition analyze_image (fuel : nat) (user_query : str) (image_path : path)
  : script unit :=
  try_finally
    (try_except
       (image_attempt fuel user_query image_path)
       (λ error,
          st.error (lit "An error occurred during analysis: " ++ exn_str error)))
    (unlink_missing_ok image_path).

Definition image_tab (fuel : nat) (ui : widgets) : script unit :=
  match image_file ui with
  | Some image_bytes =>
    image_path ← tempfile.NamedTemporaryFile ".png";
    tempfile.write image_path image_bytes;;
    st.image image_path;;
    let user_query := image_user_query ui in
    if st_button ui AnalyzeImage then
      if negb (truthy user_query) then
        st.warning (lit "Please enter a question or insight to analyze the image.")
      else analyze_image fuel user_query image_path
    else mret ()
  | None => st.info (lit "Upload an image file to begin analysis.")
  end.

(** Lines 179-184: the text to summarize.  The decode is part of rendering
    the tab; no [try] encloses it. *)
Definition text_content (ui : widgets) : script str :=
  match text_file ui with
  | Some data => of_result (decode data)
  | None => mret (text_input ui)
  end.

(** Lines 198-219: [try] / [except Exception as error]. *)
Definition summarize_text (instructions text : str) : script unit :=
  try_except
    (let summary_prompt := summary_prompt instructions text in
     response ← agent_run svc summary_prompt None None;
     st.subheader (lit "Summary Result");;
     st.markdown response)
    (λ error,
       st.error (lit "An error occurred during summarization: " ++ exn_str error)).

Definition text_tab (ui : widgets) : script unit :=
  st.subheader (lit "Text Summarization");;
  text ← text_content ui;
  if st_button ui SummarizeText then
    if negb (truthy (strip text)) then
      st.warning (lit "Please provide some text or upload a file to summarize.")
    else summarize_text (summary_prompt_input ui) text
  else mret ().

Definition text_area_style : str :=
  NL ++ indent 4 ++ lit "<style>" ++ NL
  ++ indent 4 ++ lit ".stTextArea textarea {" ++ NL
  ++ indent 8 ++ lit "height: 100px;" ++ NL
  ++ indent 4 ++ lit "}" ++ NL
  ++ indent 4 ++ lit "</style>" ++ NL
  ++ indent 4.

(** One execution of the page script: title and header, the three tabs in
    order, the closing style block.  An exception that no handler of the
    script catches ends the execution where it was raised. *)
Definition page_script (fuel : nat) (ui : widgets) : script unit :=
  st.title (lit "Phidata Media AI Summarizer Agent " ++ [0x1F3A5; 0x1F5BC; 0xFE0F]%N);;
  st.header (lit "Powered by Gemini 2.0 Flash Exp");;
  video_tab fuel ui;;
  image_tab fuel ui;;
  text_tab ui;;
  st.markdown text_area_style.

End Script.

(** ** Vocabulary for the statements *)

(** All of [s] is whitespace (so [s.strip()] is empty). *)
Definition blank (s : str) : bool := forallb isspace s.

(** The name [tempfile] hands out in world [w], and [w] once the upload has
    been written to it. *)
Definition scratch_path (sfx : string) (w : world) : path :=
  Path (tempfile.fresh_stem (disk w)) sfx.
Definition with_scratch (sfx : string) (data : bytes) (w : world) : world :=
  set_disk (insert (scratch_path sfx w) data) w.

(** The staging service answers the refresh of each handle of [hs] with the
    next handle of [hs], starting at its [k]-th refresh. *)
Fixpoint chain (svc : services) (k : nat) (hs : list file_handle) : Prop :=
  match hs with
  | h :: tl =>
    match tl with
    | h' :: _ => get_file_reply svc k (name h) = Ok h' ∧ chain svc (S k) tl
    | [] => True
    end
  | [] => True
  end.

(** One wait and one refresh per handle that was still processing. *)
Fixpoint polling (waiting : list file_handle) : list event :=
  match waiting with
  | [] => []
  | h :: tl => Sleep 1 :: GetFile (name h) :: polling tl
  end.

Definition analysis_error (e : exn) : element :=
  StError (lit "An error occurred during analysis: " ++ exn_str e).
Definition summarization_error (e : exn) : element :=
  StError (lit "An error occurred during summarization: " ++ exn_str e).

(** How an analysis request ends once the agent has been called in world
    [w] for scratch file [p]: the answer is shown, or the error is, and the
    scratch file is removed. *)
Definition conclude (reply : result str) (p : path) (w : world) : world :=
  match reply with
  | Ok content =>
    set_disk (delete p)
      (render (StMarkdown content) (render (StSubheader (lit "Analysis Result")) w))
  | Err e => set_disk (delete p) (render (analysis_error e) w)
  end.

(** [w'] is [w] with more on the page and nothing else done towards the
    outside. *)
Definition quiet (w w' : world) : Prop :=
  trace w' = trace w ∧ refreshed w' = refreshed w
  ∧ page w `prefix_of` page w' ∧ disk w ⊆ disk w'.

Definition is_agent_run (e : event) : bool :=
  match e with
  | AgentRun _ _ _ => true
  | _ => false
  end.

Definition is_warning (el : element) : bool :=
  match el with
  | StWarning _ => true
  | _ => false
  end.

(** ** Stubs for the remote collaborators, and sample inputs *)

Module Stub.

Definition processing_handle : file_handle := FileHandle "files/scratch" "PROCESSING".
Definition active_handle : file_handle := FileHandle "files/scratch" "ACTIVE".
Definition failed_handle : file_handle := FileHandle "files/scratch" "FAILED".

Definition a_red_circle : str := lit "A red circle.".
Definition unavailable : exn := Exception "ServiceUnavailable" (lit "503 try again later").

(** Staging reports processing twice (on upload and on the first refresh),
    then active. *)
Definition slow_staging : services :=
  Services (λ _, Ok processing_handle)
           (λ k _, if k <? 1 then Ok processing_handle else Ok active_handle)
           (λ _ _ _, Ok a_red_circle).

(** Staging reports failed at once; the agent answers all the same. *)
Definition failed_staging : services :=
  Services (λ _, Ok failed_handle) (λ _ _, Ok failed_handle) (λ _ _ _, Ok a_red_circle).

(** Staging reports active at once. *)
Definition ready_staging : services :=
  Services (λ _, Ok active_handle) (λ _ _, Ok active_handle) (λ _ _ _, Ok a_red_circle).

(** Staging refuses the upload. *)
Definition staging_down : services :=
  Services (λ _, Err unavailable) (λ _ _, Err unavailable) (λ _ _ _, Ok a_red_circle).

(** Staging never gets past processing. *)
Definition stuck_staging : services :=
  Services (λ _, Ok processing_handle) (λ _ _, Ok processing_handle)
           (λ _ _ _, Ok a_red_circle).

Definition empty_world : world := World ∅ [] [] 0.

Definition what_is_shown : str := lit "What is shown?".
Definition clip : bytes := [x00; x01; x02; x03]%byte.
Definition scratch0 : path := Path 0 ".mp4".

End Stub.

Module Sample.
Import Stub.

(** A video uploaded, the query box left empty, Analyze Video pressed. *)
Definition video_without_query : widgets :=
  Widgets (Some clip) [] None [] [] None [] (Some AnalyzeVideo).

(** A video uploaded, three spaces typed as the query, Analyze Video pressed. *)
Definition spaces : str := lit "   ".
Definition video_with_spaces : widgets :=
  Widgets (Some clip) spaces None [] [] None [] (Some AnalyzeVideo).

(** A video uploaded, "What is shown?" asked, Analyze Video pressed. *)
Definition video_with_question : widgets :=
  Widgets (Some clip) what_is_shown None [] [] None [] (Some AnalyzeVideo).

(** Text typed and a text file uploaded as well, Summarize Text pressed. *)
Definition notes_txt : bytes := [x6e; x6f; x74; x65; x73]%byte.
Definition typed_and_uploaded : widgets :=
  Widgets None [] None [] (lit "typed") (Some notes_txt) [] (Some SummarizeText).

(** A text file that is not UTF-8. *)
Definition latin1_txt : bytes := [x63; x61; x66; xe9]%byte.
Definition undecodable_upload : widgets :=
  Widgets None [] None [] [] (Some latin1_txt) [] (Some SummarizeText).

(** A ten byte image with the query of the end-to-end scenario. *)
Definition fake_png : bytes := [x89; x50; x4e; x47; x0d; x0a; x1a; x0a; x00; x00]%byte.
Definition image_with_query : widgets :=
  Widgets None [] (Some fake_png) what_is_shown [] None [] (Some AnalyzeImage).

Definition tab : str := [9%N].
Definition bullets : str := lit "Use bullet points.".

End Sample.

(** ** Further vocabulary: the shape of a request's trace *)


(** The events of one analysis request for scratch file [p]: the upload, one
    wait and refresh per handle seen in state PROCESSING, and at the end at
    most one agent call, [call h], for a handle [h] in another state. *)
Definition request_events (p : path) (call : file_handle → event)
    (evs : list event) : Prop :=
  ∃ hs tail,
    evs = UploadFile p :: polling hs ++ tail
    ∧ Forall (λ h, state_name h = PROCESSING) hs
    ∧ (tail = [] ∨ ∃ h, state_name h ≠ PROCESSING ∧ tail = [call h]).

Definition video_call (q : str) (h : file_handle) : event :=
  AgentRun (video_analysis_prompt q) (Some [h]) None.
Definition image_call (q : str) (h : file_handle) : event :=
  AgentRun (image_analysis_prompt q) None (Some [h]).

(** The text the text tab works on is [text]: what was typed when no file
    is uploaded, the decoded file otherwise. *)
Definition resolves_to (ui : widgets) (text : str) : Prop :=
  match text_file ui with
  | None => text = text_input ui
  | Some data => decode data = Ok text
  end.

(** ** Start of the process: the API key (lines 11-19) *)

Module Startup.

(** [environ]: [os.environ]; [api_key]: the key the [genai] client library
    has been configured with, if any. *)
Record process := Process {
  environ : gmap string str;
  api_key : option str
}.

(** [load_dotenv()]: the variables of the [.env] file (none if there is no
    such file) are added to the environment; a variable that is already set
    keeps its value. *)
Definition load_dotenv (dotenv : gmap string str) (pr : process) : process :=
  Process (environ pr ∪ dotenv) (api_key pr).

(** [os.getenv(name)] *)
Definition getenv (name : string) (pr : process) : option str :=
  environ pr !! name.

(** [genai.configure(api_key=key)] *)
Definition genai_configure (key : str) (pr : process) : process :=
  Process (environ pr) (Some key).

(** Lines 13-19. *)
Definition configure (dotenv : gmap string str) (pr : process) : process :=
  let pr := load_dotenv dotenv pr in
  let API_KEY := getenv "GOOGLE_API_KEY" pr in
  match API_KEY with
  | Some key => if truthy key then genai_configure key pr else pr
  | None => pr
  end.

End Startup.

Module More.
Import Stub.

Definition flaky : exn := Exception "DeadlineExceeded" (lit "504 deadline exceeded").

(** Staging reports processing on upload and refuses the first refresh. *)
Definition flaky_staging : services :=
  Services (λ _, Ok processing_handle) (λ _ _, Err flaky) (λ _ _ _, Ok a_red_circle).

(** The agent is down; staging is not needed. *)
Definition agent_down : services :=
  Services (λ _, Ok active_handle) (λ _ _, Ok active_handle) (λ _ _ _, Err unavailable).

(** Text typed, no file, Summarize Text pressed. *)
Definition typed_only : widgets :=
  Widgets None [] None [] (lit "some text") None [] (Some SummarizeText).

(** A scratch file left by an earlier execution. *)
Definition old_scratch : path := Path 7 ".png".
Definition used_world : world :=
  World {[old_scratch := Sample.fake_png]} [] [] 0.

(** A key in the environment, another in the [.env] file. *)
Definition env_key : str := lit "key-from-env".
Definition file_key : str := lit "key-from-file".
Definition both_set : Startup.process :=
  Startup.Process {["GOOGLE_API_KEY" := env_key]} None.
Definition dotenv_file : gmap string str := {["GOOGLE_API_KEY" := file_key]}.

End More.

(** A Unicode scalar value: a code point up to U+10FFFF that is not a
    surrogate. *)
Definition scalar_value (c : N) : Prop :=
  (c < 0x110000 ∧ ¬ (0xD800 ≤ c ∧ c ≤ 0xDFFF))%N.

(** * Properties *)

(** ** Strings *)

Section Strings.
Implicit Types s t : str.

Lemma lstrip_nil_iff s : lstrip s = [] ↔ blank s = true.
Proof.
  unfold blank. induction s as [|c s IH]; simpl; [done|].
  destruct (isspace c); simpl; [exact IH|]. split; discriminate.
Qed.

Lemma lstrip_head s c r : lstrip s = c :: r → isspace c = false.
Proof.
  induction s as [|d s IH]; simpl; [done|].
  destruct (isspace d) eqn:Ed; [exact IH|]. by intros [= <- _].
Qed.

Lemma blank_reverse s : blank (reverse s) = blank s.
Proof.
  unfold blank. induction s as [|c s IH]; [done|].
  rewrite reverse_cons, forallb_app, IH. simpl. by rewrite andb_true_r, andb_comm.
Qed.

(** A string is blank after trimming exactly when all of it is whitespace. *)
Lemma strip_nil_iff s : strip s = [] ↔ blank s = true.
Proof.
  unfold strip, rstrip. split.
  - intros H. apply (f_equal reverse) in H.
    rewrite reverse_involutive, reverse_nil in H.
    apply lstrip_nil_iff in H. rewrite blank_reverse in H.
    destruct (lstrip s) as [|c r] eqn:E; [by apply lstrip_nil_iff|].
    apply lstrip_head in E. simpl in H. by rewrite E in H.
  - intros H. apply lstrip_nil_iff in H. by rewrite H.
Qed.

Lemma truthy_strip s : truthy (strip s) = negb (blank s).
Proof.
  destruct (blank s) eqn:E.
  - apply strip_nil_iff in E. by rewrite E.
  - destruct (strip s) eqn:Es; [|done].
    apply strip_nil_iff in Es. congruence.
Qed.

Lemma occurs_in_elem a b c : occurs_in a b → c ∈ a → c ∈ b.
Proof. intros (pre & post & ->) Hc. set_solver. Qed.

End Strings.

(** ** Running the monad *)

Ltac run :=
  repeat (progress (unfold mbind, script_bind, mret, script_ret, modify,
                    raise, hang, of_result, try_except, try_finally;
                    simpl)).

Lemma scratch_path_fresh sfx w : disk w !! scratch_path sfx w = None.
Proof.
  destruct (disk w !! scratch_path sfx w) as [d|] eqn:E; [|done].
  exfalso. apply (is_fresh (set_map stem (dom (disk w)) : gset nat)).
  change (fresh _) with (stem (scratch_path sfx w)).
  apply elem_of_map_2, elem_of_dom. by exists d.
Qed.

Lemma scratch_written {A} sfx data (k : path → script A) w :
  (p ← tempfile.NamedTemporaryFile sfx; tempfile.write p data;; k p) w
  = k (scratch_path sfx w) (with_scratch sfx data w).
Proof.
  unfold tempfile.NamedTemporaryFile, tempfile.write. run.
  f_equal. unfold with_scratch, set_disk. simpl. f_equal.
  by rewrite alter_insert_eq.
Qed.

Lemma with_scratch_lookup sfx data w :
  disk (with_scratch sfx data w) !! scratch_path sfx w = Some data.
Proof. unfold with_scratch. simpl. apply lookup_insert_eq. Qed.

(** Writing the upload adds one file to the disk, under a name that was
    free, and touches no other. *)
Lemma with_scratch_adds_one_file sfx data w :
  (scratch_path sfx w ∉ dom (disk w))
  ∧ (dom (disk (with_scratch sfx data w)) = {[scratch_path sfx w]} ∪ dom (disk w))
  ∧ ∀ p, p ≠ scratch_path sfx w →
         disk (with_scratch sfx data w) !! p = disk w !! p.
Proof.
  split; [apply not_elem_of_dom, scratch_path_fresh|].
  unfold with_scratch. simpl. split; [apply dom_insert_L|].
  intros p Hp. by apply lookup_insert_ne.
Qed.

Section Poll.
Variable svc : services.

Lemma poll_settled fuel h w :
  state_name h ≠ PROCESSING → poll svc fuel h w = (Done h, w).
Proof. intros H. destruct fuel; simpl; by case_decide. Qed.

Lemma poll_step fuel h w :
  state_name h = PROCESSING →
  poll svc (S fuel) h w =
    match get_file_reply svc (refreshed w) (name h) with
    | Ok h' => poll svc fuel h' (next_refresh (record (GetFile (name h)) (record (Sleep 1) w)))
    | Err e => (Raised e, next_refresh (record (GetFile (name h)) (record (Sleep 1) w)))
    end.
Proof.
  intros H. simpl. case_decide; [|done].
  unfold time_sleep, get_file. run. by destruct (get_file_reply _ _ _).
Qed.

Lemma poll_out_of_fuel h w :
  state_name h = PROCESSING → poll svc 0 h w = (Hang, w).
Proof. intros H. simpl. by case_decide. Qed.

(** The loop touches neither the disk nor the page. *)
Lemma poll_frame fuel : ∀ h w, 
  disk (poll svc fuel h w).2 = disk w ∧ page (poll svc fuel h w).2 = page w.
Proof.
  induction fuel as [|fuel IH]; intros h w.
  - simpl. by case_decide.
  - destruct (decide (state_name h = PROCESSING)) as [E|E].
    + rewrite poll_step by done.
      destruct (get_file_reply _ _ _); [|done].
      destruct (IH a (next_refresh (record (GetFile (name h)) (record (Sleep 1) w)))) as [-> ->].
      done.
    + by rewrite poll_settled.
Qed.

(** The loop is left only with a handle that is no longer processing. *)
Lemma poll_done fuel : ∀ h w h' w',
  poll svc fuel h w = (Done h', w') → state_name h' ≠ PROCESSING.
Proof.
  induction fuel as [|fuel IH]; intros h w h' w'.
  - simpl. case_decide; [done|]. by intros [= <- _].
  - destruct (decide (state_name h = PROCESSING)) as [E|E].
    + rewrite poll_step by done.
      destruct (get_file_reply _ _ _); [apply IH|done].
    + rewrite poll_settled by done. by intros [= <- _].
Qed.

Lemma poll_chain waiting : ∀ ready fuel w,
  chain svc (refreshed w) (waiting ++ [ready]) →
  Forall (λ h, state_name h = PROCESSING) waiting →
  state_name ready ≠ PROCESSING →
  length waiting ≤ fuel →
  poll svc fuel (hd ready waiting) w
  = (Done ready,
     World (disk w) (page w) (trace w ++ polling waiting)
           (refreshed w + length waiting)).
Proof.
  induction waiting as [|h tl IH]; intros ready fuel w Hc Hw Hr Hf.
  - simpl. rewrite poll_settled by done. destruct w; simpl.
    by rewrite app_nil_r, Nat.add_0_r.
  - destruct fuel as [|fuel]; [simpl in Hf; lia|].
    apply Forall_cons in Hw as [Hh Hw]. change (hd ready (h :: tl)) with h.
    rewrite poll_step by done.
    assert (get_file_reply svc (refreshed w) (name h) = Ok (hd ready tl)
            ∧ chain svc (S (refreshed w)) (tl ++ [ready])) as [-> Hc'].
    { destruct tl; simpl in *; tauto. }
    rewrite IH; simpl in *; [|done..|lia].
    f_equal. f_equal; [|lia]. by rewrite <- !app_assoc.
Qed.

Lemma poll_chain_hang waiting : ∀ ready fuel w,
  chain svc (refreshed w) (waiting ++ [ready]) →
  Forall (λ h, state_name h = PROCESSING) waiting →
  fuel < length waiting →
  (poll svc fuel (hd ready waiting) w).1 = Hang.
Proof.
  induction waiting as [|h tl IH]; intros ready fuel w Hc Hw Hf; [simpl in Hf; lia|].
  apply Forall_cons in Hw as [Hh Hw].
  change (hd ready (h :: tl)) with h.
  destruct fuel as [|fuel]; [by rewrite poll_out_of_fuel|].
  rewrite poll_step by done.
  assert (get_file_reply svc (refreshed w) (name h) = Ok (hd ready tl)
          ∧ chain svc (S (refreshed w)) (tl ++ [ready])) as [-> Hc'].
  { destruct tl; simpl in *; tauto. }
  apply IH; simpl in *; [done..|lia].
Qed.

(** Against a service that answers every refresh with a processing handle
    the loop outlasts any bound, waiting and refreshing once per unit of
    fuel. *)
Lemma poll_forever fuel : ∀ h w,
  (∀ k nm, ∃ h', get_file_reply svc k nm = Ok h' ∧ state_name h' = PROCESSING) →
  state_name h = PROCESSING →
  (poll svc fuel h w).1 = Hang
  ∧ refreshed (poll svc fuel h w).2 = refreshed w + fuel
  ∧ length (trace (poll svc fuel h w).2) = length (trace w) + 2 * fuel.
Proof.
  induction fuel as [|fuel IH]; intros h w Hs Hh.
  - rewrite poll_out_of_fuel by done. simpl. split; [done|lia].
  - rewrite poll_step by done.
    destruct (Hs (refreshed w) (name h)) as (h' & -> & Hh').
    destruct (IH h' (next_refresh (record (GetFile (name h)) (record (Sleep 1) w))) Hs Hh')
      as (-> & -> & ->).
    simpl. rewrite !length_app. simpl. split; [done|]. lia.
Qed.

End Poll.

(** ** Fuel is only a bound *)

(** Once an evaluation has seen the loop end, any longer evaluation sees the
    same end. *)
Lemma poll_fuel_mono svc fuel : ∀ h w fuel',
  (poll svc fuel h w).1 ≠ Hang → fuel ≤ fuel' →
  poll svc fuel' h w = poll svc fuel h w.
Proof.
  induction fuel as [|fuel IH]; intros h w fuel' Hr Hle.
  - destruct (decide (state_name h = PROCESSING)) as [E|E].
    + by rewrite poll_out_of_fuel in Hr.
    + by rewrite !poll_settled.
  - destruct (decide (state_name h = PROCESSING)) as [E|E]; [|by rewrite !poll_settled].
    destruct fuel' as [|fuel']; [lia|].
    rewrite !poll_step in * by done.
    destruct (get_file_reply _ _ _); [|done]. apply IH; [done|lia].
Qed.

(** ** One analysis request, start to end *)

Ltac run_request :=
  unfold upload_file, agent_run, st.subheader, st.markdown, st.error,
         unlink_missing_ok, analysis_error, conclude;
  run;
  repeat match goal with
         | |- context [match ?r with Ok _ => _ | Err _ => _ end] => destruct r; run
         | |- context [let (_, _) := ?r in _] => destruct r as [[?|?|] ?]; run
         | |- context [match ?r with (_, _) => _ end] => destruct r as [[?|?|] ?]; run
         end;
  try done.

Section Requests.
Variable svc : services.

Lemma video_attempt_run fuel q p w :
  video_attempt svc fuel q p w =
  match upload_file_reply svc p with
  | Err e => (Raised e, record (UploadFile p) w)
  | Ok h0 =>
    match poll svc fuel h0 (record (UploadFile p) w) with
    | (Done h, w2) =>
      let w3 := record (AgentRun (video_analysis_prompt q) (Some [h]) None) w2 in
      match agent_run_reply svc (video_analysis_prompt q) (Some [h]) None with
      | Ok content =>
        (Done (), render (StMarkdown content)
                    (render (StSubheader (lit "Analysis Result")) w3))
      | Err e => (Raised e, w3)
      end
    | (Raised e, w2) => (Raised e, w2)
    | (Hang, w2) => (Hang, w2)
    end
  end.
Proof. unfold video_attempt. run_request. Qed.

Lemma image_attempt_run fuel q p w :
  image_attempt svc fuel q p w =
  match upload_file_reply svc p with
  | Err e => (Raised e, record (UploadFile p) w)
  | Ok h0 =>
    match poll svc fuel h0 (record (UploadFile p) w) with
    | (Done h, w2) =>
      let w3 := record (AgentRun (image_analysis_prompt q) None (Some [h])) w2 in
      match agent_run_reply svc (image_analysis_prompt q) None (Some [h]) with
      | Ok content =>
        (Done (), render (StMarkdown content)
                    (render (StSubheader (lit "Analysis Result")) w3))
      | Err e => (Raised e, w3)
      end
    | (Raised e, w2) => (Raised e, w2)
    | (Hang, w2) => (Hang, w2)
    end
  end.
Proof. unfold image_attempt. run_request. Qed.

(** What [try]/[except]/[finally] makes of the three ways the suite ends. *)
Lemma analyze_video_by_attempt fuel q p w :
  analyze_video svc fuel q p w =
  match video_attempt svc fuel q p w with
  | (Done _, w1) => (Done (), set_disk (delete p) w1)
  | (Raised e, w1) => (Done (), set_disk (delete p) (render (analysis_error e) w1))
  | (Hang, w1) => (Hang, w1)
  end.
Proof.
  unfold analyze_video. generalize (video_attempt svc fuel q p). intros body.
  unfold st.error, unlink_missing_ok, analysis_error. run.
  by destruct (body w) as [[[]|e|] w1].
Qed.

Lemma analyze_image_by_attempt fuel q p w :
  analyze_image svc fuel q p w =
  match image_attempt svc fuel q p w with
  | (Done _, w1) => (Done (), set_disk (delete p) w1)
  | (Raised e, w1) => (Done (), set_disk (delete p) (render (analysis_error e) w1))
  | (Hang, w1) => (Hang, w1)
  end.
Proof.
  unfold analyze_image. generalize (image_attempt svc fuel q p). intros body.
  unfold st.error, unlink_missing_ok, analysis_error. run.
  by destruct (body w) as [[[]|e|] w1].
Qed.

Lemma analyze_video_run fuel q p w :
  analyze_video svc fuel q p w =
  match upload_file_reply svc p with
  | Err e =>
    (Done (), set_disk (delete p) (render (analysis_error e) (record (UploadFile p) w)))
  | Ok h0 =>
    match poll svc fuel h0 (record (UploadFile p) w) with
    | (Done h, w2) =>
      (Done (),
       conclude (agent_run_reply svc (video_analysis_prompt q) (Some [h]) None) p
         (record (AgentRun (video_analysis_prompt q) (Some [h]) None) w2))
    | (Raised e, w2) => (Done (), set_disk (delete p) (render (analysis_error e) w2))
    | (Hang, w2) => (Hang, w2)
    end
  end.
Proof.
  rewrite analyze_video_by_attempt, video_attempt_run. unfold conclude.
  destruct (upload_file_reply svc p); [|done].
  destruct (poll _ _ _ _) as [[h| |] w2]; [|done..]. simpl.
  by destruct (agent_run_reply _ _ _ _).
Qed.

Lemma analyze_image_run fuel q p w :
  analyze_image svc fuel q p w =
  match upload_file_reply svc p with
  | Err e =>
    (Done (), set_disk (delete p) (render (analysis_error e) (record (UploadFile p) w)))
  | Ok h0 =>
    match poll svc fuel h0 (record (UploadFile p) w) with
    | (Done h, w2) =>
      (Done (),
       conclude (agent_run_reply svc (image_analysis_prompt q) None (Some [h])) p
         (record (AgentRun (image_analysis_prompt q) None (Some [h])) w2))
    | (Raised e, w2) => (Done (), set_disk (delete p) (render (analysis_error e) w2))
    | (Hang, w2) => (Hang, w2)
    end
  end.
Proof.
  rewrite analyze_image_by_attempt, image_attempt_run. unfold conclude.
  destruct (upload_file_reply svc p); [|done].
  destruct (poll _ _ _ _) as [[h| |] w2]; [|done..]. simpl.
  by destruct (agent_run_reply _ _ _ _).
Qed.

End Requests.

(** ** The tabs *)

Lemma quiet_refl w : quiet w w.
Proof. by unfold quiet. Qed.

Lemma quiet_trans w1 w2 w3 : quiet w1 w2 → quiet w2 w3 → quiet w1 w3.
Proof.
  intros (? & ? & ? & ?) (? & ? & ? & ?). unfold quiet.
  repeat split; [congruence|congruence|by etrans|by etrans].
Qed.

Lemma quiet_render el w : quiet w (render el w).
Proof. unfold quiet. simpl. repeat split; try done. by apply prefix_app_r. Qed.

Lemma quiet_with_scratch sfx data w : quiet w (with_scratch sfx data w).
Proof.
  unfold quiet. simpl. repeat split; try done.
  apply insert_subseteq, scratch_path_fresh.
Qed.

Ltac quiet_steps :=
  repeat first [ apply quiet_refl
               | (eapply quiet_trans; [|apply quiet_render])
               | (eapply quiet_trans; [|apply quiet_with_scratch]) ].

Section Tabs.
Variable svc : services.

Lemma video_tab_run fuel ui w data :
  video_file ui = Some data →
  video_tab svc fuel ui w =
  let p := scratch_path ".mp4" w in
  let w1 := render (StVideo p) (with_scratch ".mp4" data w) in
  if st_button ui AnalyzeVideo then
    if truthy (video_user_query ui)
    then analyze_video svc fuel (video_user_query ui) p w1
    else (Done (),
          render (StWarning (lit "Please enter a question or insight to analyze the video.")) w1)
  else (Done (), w1).
Proof.
  intros Hf. unfold video_tab. rewrite Hf, scratch_written.
  unfold st.video, st.warning. run.
  destruct (st_button ui AnalyzeVideo); [|done].
  by destruct (truthy (video_user_query ui)).
Qed.

Lemma image_tab_run fuel ui w data :
  image_file ui = Some data →
  image_tab svc fuel ui w =
  let p := scratch_path ".png" w in
  let w1 := render (StImage p) (with_scratch ".png" data w) in
  if st_button ui AnalyzeImage then
    if truthy (image_user_query ui)
    then analyze_image svc fuel (image_user_query ui) p w1
    else (Done (),
          render (StWarning (lit "Please enter a question or insight to analyze the image.")) w1)
  else (Done (), w1).
Proof.
  intros Hf. unfold image_tab. rewrite Hf, scratch_written.
  unfold st.image, st.warning. run.
  destruct (st_button ui AnalyzeImage); [|done].
  by destruct (truthy (image_user_query ui)).
Qed.

Lemma text_tab_run ui w :
  text_tab svc ui w =
  let w1 := render (StSubheader (lit "Text Summarization")) w in
  match text_file ui with
  | Some data =>
    match decode data with
    | Ok text =>
      if st_button ui SummarizeText then
        if truthy (strip text) then summarize_text svc (summary_prompt_input ui) text w1
        else (Done (),
              render (StWarning (lit "Please provide some text or upload a file to summarize.")) w1)
      else (Done (), w1)
    | Err e => (Raised e, w1)
    end
  | None =>
    if st_button ui SummarizeText then
      if truthy (strip (text_input ui))
      then summarize_text svc (summary_prompt_input ui) (text_input ui) w1
      else (Done (),
            render (StWarning (lit "Please provide some text or upload a file to summarize.")) w1)
    else (Done (), w1)
  end.
Proof.
  unfold text_tab, text_content, st.subheader, st.warning. run.
  destruct (text_file ui) as [data|]; run.
  - destruct (decode data) as [text|e]; run; [|done].
    destruct (st_button ui SummarizeText); [|done]. by destruct (truthy (strip text)).
  - destruct (st_button ui SummarizeText); [|done].
    by destruct (truthy (strip (text_input ui))).
Qed.

Lemma summarize_text_run instr text w :
  summarize_text svc instr text w =
  let w1 := record (AgentRun (summary_prompt instr text) None None) w in
  match agent_run_reply svc (summary_prompt instr text) None None with
  | Ok content =>
    (Done (), render (StMarkdown content) (render (StSubheader (lit "Summary Result")) w1))
  | Err e => (Done (), render (summarization_error e) w1)
  end.
Proof.
  unfold summarize_text, agent_run, st.subheader, st.markdown, st.error,
    summarization_error. run.
  by destruct (agent_run_reply _ _ _ _).
Qed.

Create HintDb quiet.
Local Hint Resolve quiet_refl quiet_render quiet_with_scratch : quiet.

Lemma video_tab_idle fuel ui w :
  st_button ui AnalyzeVideo = false →
  ∃ w', video_tab svc fuel ui w = (Done (), w') ∧ quiet w w'.
Proof.
  intros Hb. destruct (video_file ui) as [data|] eqn:Hf.
  - rewrite (video_tab_run _ _ _ data Hf), Hb. simpl. eexists. split; [done|].
    quiet_steps.
  - unfold video_tab. rewrite Hf. unfold st.info. run. eauto with quiet.
Qed.

Lemma image_tab_idle fuel ui w :
  st_button ui AnalyzeImage = false →
  ∃ w', image_tab svc fuel ui w = (Done (), w') ∧ quiet w w'.
Proof.
  intros Hb. destruct (image_file ui) as [data|] eqn:Hf.
  - rewrite (image_tab_run _ _ _ data Hf), Hb. simpl. eexists. split; [done|].
    quiet_steps.
  - unfold image_tab. rewrite Hf. unfold st.info. run. eauto with quiet.
Qed.

Lemma text_tab_idle ui w :
  st_button ui SummarizeText = false → quiet w (text_tab svc ui w).2.
Proof.
  intros Hb. rewrite text_tab_run, Hb. simpl.
  destruct (text_file ui) as [data|]; [destruct (decode data)|]; simpl;
    auto with quiet.
Qed.

Lemma st_button_pressed ui b : pressed ui = Some b → st_button ui b = true.
Proof. intros H. unfold st_button. by rewrite bool_decide_eq_true. Qed.

Lemma st_button_other ui b b' :
  pressed ui = Some b → b ≠ b' → st_button ui b' = false.
Proof.
  intros H Hne. unfold st_button. rewrite bool_decide_eq_false, H. congruence.
Qed.

(** The tail of the page script after the video and image tabs. *)
Lemma page_script_run fuel ui w :
  page_script svc fuel ui w =
  let w0 := render (StHeader (lit "Powered by Gemini 2.0 Flash Exp"))
              (render (StTitle (lit "Phidata Media AI Summarizer Agent "
                                  ++ [0x1F3A5; 0x1F5BC; 0xFE0F]%N)) w) in
  match video_tab svc fuel ui w0 with
  | (Done _, w1) =>
    match image_tab svc fuel ui w1 with
    | (Done _, w2) =>
      match text_tab svc ui w2 with
      | (Done _, w3) => (Done (), render (StMarkdown text_area_style) w3)
      | (Raised e, w3) => (Raised e, w3)
      | (Hang, w3) => (Hang, w3)
      end
    | (Raised e, w2) => (Raised e, w2)
    | (Hang, w2) => (Hang, w2)
    end
  | (Raised e, w1) => (Raised e, w1)
  | (Hang, w1) => (Hang, w1)
  end.
Proof.
  unfold page_script, st.title, st.header, st.markdown. run.
  destruct (video_tab _ _ _ _) as [[[]|e|] w1]; [|done..].
  destruct (image_tab _ _ _ _) as [[[]|e|] w2]; [|done..].
  by destruct (text_tab _ _ _) as [[[]|e|] w3].
Qed.

End Tabs.

Section Effects.
Variable svc : services.

(** The loop adds waits and refreshes to the trace, never an agent call. *)
Lemma poll_trace fuel : ∀ h w, ∃ evs,
  trace (poll svc fuel h w).2 = trace w ++ evs
  ∧ Forall (λ e, is_agent_run e = false) evs.
Proof.
  induction fuel as [|fuel IH]; intros h w.
  - exists []. rewrite app_nil_r. simpl. by case_decide.
  - destruct (decide (state_name h = PROCESSING)) as [E|E].
    + rewrite poll_step by done.
      destruct (get_file_reply _ _ _) as [h'|e].
      * destruct (IH h' (next_refresh (record (GetFile (name h)) (record (Sleep 1) w))))
          as (evs & -> & Hevs).
        exists (Sleep 1 :: GetFile (name h) :: evs). simpl.
        rewrite <- ?app_assoc. split; [done|]. by repeat constructor.
      * exists [Sleep 1; GetFile (name h)]. simpl.
        rewrite <- ?app_assoc. split; [done|]. by repeat constructor.
    + rewrite poll_settled by done. exists []. by rewrite app_nil_r.
Qed.

(** What an analysis request adds to the trace and to the page: the upload
    first; agent calls only with the tab's own prompt and a handle that has
    left the processing state; never a warning. *)
Lemma analyze_video_effects fuel q p w (r := analyze_video svc fuel q p w) :
  ∃ evs els,
    trace r.2 = trace w ++ UploadFile p :: evs
    ∧ page r.2 = page w ++ els
    ∧ Forall (λ e, is_agent_run e = true →
                   ∃ h, e = AgentRun (video_analysis_prompt q) (Some [h]) None
                        ∧ state_name h ≠ PROCESSING) evs
    ∧ Forall (λ el, is_warning el = false) els.
Proof.
  subst r. rewrite analyze_video_run.
  destruct (upload_file_reply svc p) as [h0|e].
  - pose proof (poll_trace fuel h0 (record (UploadFile p) w)) as (evs & Ht & Hevs).
    pose proof (poll_frame svc fuel h0 (record (UploadFile p) w)) as [_ Hp].
    pose proof (poll_done svc fuel h0 (record (UploadFile p) w)) as Hd.
    assert (Forall (λ e, is_agent_run e = true →
                   ∃ h, e = AgentRun (video_analysis_prompt q) (Some [h]) None
                        ∧ state_name h ≠ PROCESSING) evs) as Hevs'.
    { eapply Forall_impl; [exact Hevs|]. simpl. congruence. }
    destruct (poll svc fuel h0 _) as [[h|e|] w2]; simpl in *.
    + exists (evs ++ [AgentRun (video_analysis_prompt q) (Some [h]) None]).
      unfold conclude. destruct (agent_run_reply _ _ _ _); simpl;
        rewrite Ht, Hp, <- ?app_assoc; eexists; (split; [done|]);
        (split; [done|]); (split; [|by repeat constructor]);
        (apply Forall_app; split; [done|]); repeat constructor; eauto.
    + exists evs, [analysis_error e]. rewrite Ht, Hp, <- ?app_assoc.
      repeat split; try done. by repeat constructor.
    + exists evs, []. rewrite Ht, Hp, <- ?app_assoc, app_nil_r.
      repeat split; try done.
  - exists [], [analysis_error e]. simpl. rewrite <- ?app_assoc.
    repeat split; try done. by repeat constructor.
Qed.

Lemma analyze_image_effects fuel q p w (r := analyze_image svc fuel q p w) :
  ∃ evs els,
    trace r.2 = trace w ++ UploadFile p :: evs
    ∧ page r.2 = page w ++ els
    ∧ Forall (λ e, is_agent_run e = true →
                   ∃ h, e = AgentRun (image_analysis_prompt q) None (Some [h])
                        ∧ state_name h ≠ PROCESSING) evs
    ∧ Forall (λ el, is_warning el = false) els.
Proof.
  subst r. rewrite analyze_image_run.
  destruct (upload_file_reply svc p) as [h0|e].
  - pose proof (poll_trace fuel h0 (record (UploadFile p) w)) as (evs & Ht & Hevs).
    pose proof (poll_frame svc fuel h0 (record (UploadFile p) w)) as [_ Hp].
    pose proof (poll_done svc fuel h0 (record (UploadFile p) w)) as Hd.
    assert (Forall (λ e, is_agent_run e = true →
                   ∃ h, e = AgentRun (image_analysis_prompt q) None (Some [h])
                        ∧ state_name h ≠ PROCESSING) evs) as Hevs'.
    { eapply Forall_impl; [exact Hevs|]. simpl. congruence. }
    destruct (poll svc fuel h0 _) as [[h|e|] w2]; simpl in *.
    + exists (evs ++ [AgentRun (image_analysis_prompt q) None (Some [h])]).
      unfold conclude. destruct (agent_run_reply _ _ _ _); simpl;
        rewrite Ht, Hp, <- ?app_assoc; eexists; (split; [done|]);
        (split; [done|]); (split; [|by repeat constructor]);
        (apply Forall_app; split; [done|]); repeat constructor; eauto.
    + exists evs, [analysis_error e]. rewrite Ht, Hp, <- ?app_assoc.
      repeat split; try done. by repeat constructor.
    + exists evs, []. rewrite Ht, Hp, <- ?app_assoc, app_nil_r.
      repeat split; try done.
  - exists [], [analysis_error e]. simpl. rewrite <- ?app_assoc.
    repeat split; try done. by repeat constructor.
Qed.

(** A request that ends leaves no file under its scratch name. *)
Lemma analyze_video_removes_scratch fuel q p w (r := analyze_video svc fuel q p w) :
  r.1 = Done () ∧ disk r.2 !! p = None ∨ r.1 = Hang.
Proof.
  subst r. rewrite analyze_video_by_attempt.
  destruct (video_attempt _ _ _ _ _) as [[[]|e|] w1]; simpl;
    [left; split; [done|apply lookup_delete_eq]..|by right].
Qed.

Lemma analyze_image_removes_scratch fuel q p w (r := analyze_image svc fuel q p w) :
  r.1 = Done () ∧ disk r.2 !! p = None ∨ r.1 = Hang.
Proof.
  subst r. rewrite analyze_image_by_attempt.
  destruct (image_attempt _ _ _ _ _) as [[[]|e|] w1]; simpl;
    [left; split; [done|apply lookup_delete_eq]..|by right].
Qed.

End Effects.

(** ** The claims *)

Lemma quiet_elem w w' el : quiet w w' → el ∈ page w → el ∈ page w'.
Proof. intros (_ & _ & [k ->] & _) H. set_solver. Qed.

(** After the video and image tabs have ended quietly, so does the page. *)
Lemma page_tail_quiet svc ui w2 (r := text_tab svc ui w2) :
  st_button ui SummarizeText = false →
  quiet w2 (match r with
            | (Done _, w3) => (Done (), render (StMarkdown text_area_style) w3)
            | (Raised e, w3) => (Raised e, w3)
            | (Hang, w3) => (Hang, w3)
            end).2.
Proof.
  intros Hb. pose proof (text_tab_idle svc ui w2 Hb) as Hq. fold r in Hq.
  destruct r as [[[]|e|] w3]; simpl in *; [|done..].
  eapply quiet_trans; [exact Hq|apply quiet_render].
Qed.

(** C2. With the query box empty, pressing Analyze Video (or Analyze Image)
    ends the tab with the warning as the last thing rendered, and the whole
    execution of the page leaves the trace of remote calls and sleeps, and
    the staging service, exactly as they were: neither [upload_file] nor
    [get_file] nor the agent's [run] is called. *)
Theorem C2_empty_query_warns_without_remote_calls svc fuel ui w data :
  (video_file ui = Some data → pressed ui = Some AnalyzeVideo →
   video_user_query ui = [] →
   let warning :=
     StWarning (lit "Please enter a question or insight to analyze the video.") in
   (∃ w', video_tab svc fuel ui w = (Done (), w')
          ∧ last (page w') = Some warning ∧ trace w' = trace w)
   ∧ trace (page_script svc fuel ui w).2 = trace w
   ∧ refreshed (page_script svc fuel ui w).2 = refreshed w
   ∧ warning ∈ page (page_script svc fuel ui w).2)
  ∧
  (image_file ui = Some data → pressed ui = Some AnalyzeImage →
   image_user_query ui = [] →
   let warning :=
     StWarning (lit "Please enter a question or insight to analyze the image.") in
   (∃ w', image_tab svc fuel ui w = (Done (), w')
          ∧ last (page w') = Some warning ∧ trace w' = trace w)
   ∧ trace (page_script svc fuel ui w).2 = trace w
   ∧ refreshed (page_script svc fuel ui w).2 = refreshed w
   ∧ warning ∈ page (page_script svc fuel ui w).2).
Proof.
  split; intros Hf Hp Hq warning.
  - pose proof (st_button_pressed _ _ Hp) as Hb.
    split.
    { rewrite (video_tab_run _ _ _ _ data Hf), Hb, Hq. simpl.
      eexists. split; [done|]. simpl. split; [apply last_snoc|done]. }
    rewrite page_script_run. simpl.
    rewrite (video_tab_run _ _ _ _ data Hf), Hb, Hq. simpl.
    match goal with |- context [image_tab svc fuel ui ?w1] =>
      destruct (image_tab_idle svc fuel ui w1) as (w2 & -> & Hq2);
        [by eapply st_button_other|];
      assert (quiet w w1 ∧ warning ∈ page w1) as [Hq1 Hin]
        by (split; [quiet_steps|set_solver])
    end.
    pose proof (page_tail_quiet svc ui w2
                  ltac:(by eapply st_button_other)) as Hq3.
    pose proof (quiet_trans _ _ _ Hq1 (quiet_trans _ _ _ Hq2 Hq3)) as (? & ? & ? & ?).
    split; [done|]. split; [done|].
    eapply quiet_elem; [exact (quiet_trans _ _ _ Hq2 Hq3)|done].
  - pose proof (st_button_pressed _ _ Hp) as Hb.
    split.
    { rewrite (image_tab_run _ _ _ _ data Hf), Hb, Hq. simpl.
      eexists. split; [done|]. simpl. split; [apply last_snoc|done]. }
    rewrite page_script_run. simpl.
    match goal with |- context [video_tab svc fuel ui ?w0] =>
      destruct (video_tab_idle svc fuel ui w0) as (w1 & -> & Hq1);
        [by eapply st_button_other|];
      assert (quiet w w0) as Hq0
        by quiet_steps
    end.
    rewrite (image_tab_run _ _ _ _ data Hf), Hb, Hq. simpl.
    match goal with |- context [text_tab svc ui ?w2] =>
      assert (quiet w1 w2 ∧ warning ∈ page w2) as [Hq2 Hin]
        by (split; [quiet_steps|set_solver]);
      pose proof (page_tail_quiet svc ui w2
                    ltac:(by eapply st_button_other)) as Hq3
    end.
    pose proof (quiet_trans _ _ _ Hq0 (quiet_trans _ _ _ Hq1
                 (quiet_trans _ _ _ Hq2 Hq3))) as (? & ? & ? & ?).
    split; [done|]. split; [done|].
    eapply quiet_elem; [exact Hq3|done].
Qed.

(** C1 (the code departs from the claim).  The scratch file is written while
    the tab is rendered and removed only by the [finally] of the request
    block.  When the button is pressed with an empty query the tab ends with
    the warning and the file it has just written is still on disk, also at
    the end of the whole page execution. *)
Theorem C1_scratch_file_left_after_empty_query svc fuel data w
    (other_file : option bytes) (other_query typed : str)
    (uploaded : option bytes) (instructions : str) :
  let video_ui := Widgets (Some data) [] other_file other_query typed uploaded
                    instructions (Some AnalyzeVideo) in
  let image_ui := Widgets other_file other_query (Some data) [] typed uploaded
                    instructions (Some AnalyzeImage) in
  let vp := scratch_path ".mp4" w in
  let ip := scratch_path ".png" w in
  (disk w !! vp = None
   ∧ (∃ w', video_tab svc fuel video_ui w = (Done (), w') ∧ disk w' !! vp = Some data)
   ∧ disk (page_script svc fuel video_ui w).2 !! vp = Some data)
  ∧ (disk w !! ip = None
     ∧ ∃ w', image_tab svc fuel image_ui w = (Done (), w') ∧ disk w' !! ip = Some data).
Proof.
  intros video_ui image_ui vp ip. split; [split; [apply scratch_path_fresh|split]|split].
  - rewrite (video_tab_run svc fuel video_ui _ data eq_refl). simpl.
    eexists. split; [done|]. apply with_scratch_lookup.
  - rewrite page_script_run. cbv zeta.
    rewrite (video_tab_run svc fuel video_ui _ data eq_refl). simpl.
    match goal with |- context [image_tab svc fuel video_ui ?w1] =>
      destruct (image_tab_idle svc fuel video_ui w1) as (w2 & -> & Hq2); [done|];
      assert (disk w1 !! vp = Some data) as Hin by apply lookup_insert_eq
    end.
    pose proof (page_tail_quiet svc video_ui w2 eq_refl) as Hq3.
    destruct (quiet_trans _ _ _ Hq2 Hq3) as (_ & _ & _ & Hsub).
    by eapply lookup_weaken.
  - apply scratch_path_fresh.
  - rewrite (image_tab_run svc fuel image_ui _ data eq_refl). simpl.
    eexists. split; [done|]. apply with_scratch_lookup.
Qed.

(** The same holds for every execution in which a file is uploaded and the
    button is not the one pressed: one more scratch file stays behind. *)
Lemma video_tab_idle_leaves_scratch svc fuel ui w data :
  video_file ui = Some data → st_button ui AnalyzeVideo = false →
  ∃ w', video_tab svc fuel ui w = (Done (), w')
        ∧ disk w' !! scratch_path ".mp4" w = Some data.
Proof.
  intros Hf Hb. rewrite (video_tab_run _ _ _ _ data Hf), Hb. simpl.
  eexists. split; [done|]. apply with_scratch_lookup.
Qed.

(** C3. Let the staging service hand out the handles [waiting ++ [ready]] in
    order (the first on upload, each next one on refresh), those in
    [waiting] being in state PROCESSING and [ready] not.  Then the loop
    sleeps one second and refreshes once per handle of [waiting], no more
    and no less, and ends with [ready]; after it the request goes on to the
    agent.  For a service that reports PROCESSING twice and then ACTIVE,
    [waiting] has two handles: two polls.  The number of rounds is the
    length of [waiting], whatever it is: an evaluation that follows fewer
    rounds has not seen the loop end, and against a service that never
    leaves PROCESSING the loop outlasts every bound. *)
Theorem C3_polling_ends_with_processing svc waiting ready fuel w :
  chain svc (refreshed w) (waiting ++ [ready]) →
  Forall (λ h, state_name h = PROCESSING) waiting →
  state_name ready ≠ PROCESSING →
  (length waiting ≤ fuel →
     poll svc fuel (hd ready waiting) w
     = (Done ready, World (disk w) (page w) (trace w ++ polling waiting)
                          (refreshed w + length waiting))
     ∧ ∀ q p, upload_file_reply svc p = Ok (hd ready waiting) →
         trace (analyze_video svc fuel q p w).2
         = trace w ++ UploadFile p :: polling waiting
             ++ [AgentRun (video_analysis_prompt q) (Some [ready]) None]
         ∧ trace (analyze_image svc fuel q p w).2
           = trace w ++ UploadFile p :: polling waiting
               ++ [AgentRun (image_analysis_prompt q) None (Some [ready])])
  ∧ (fuel < length waiting → (poll svc fuel (hd ready waiting) w).1 = Hang)
  ∧ ((∀ k nm, ∃ h', get_file_reply svc k nm = Ok h' ∧ state_name h' = PROCESSING) →
     ∀ h, state_name h = PROCESSING → ∀ bound,
       (poll svc bound h w).1 = Hang
       ∧ refreshed (poll svc bound h w).2 = refreshed w + bound).
Proof.
  intros Hc Hw Hr. split; [|split].
  - intros Hf.
    assert (∀ w0, refreshed w0 = refreshed w →
              poll svc fuel (hd ready waiting) w0
              = (Done ready, World (disk w0) (page w0) (trace w0 ++ polling waiting)
                               (refreshed w0 + length waiting))) as Hpoll.
    { intros w0 Hw0. apply poll_chain; try done. by rewrite Hw0. }
    split; [by apply Hpoll|]. intros q p Hu. split.
    + rewrite analyze_video_run, Hu, Hpoll by done. unfold conclude.
      destruct (agent_run_reply _ _ _ _); simpl; by rewrite <- !app_assoc.
    + rewrite analyze_image_run, Hu, Hpoll by done. unfold conclude.
      destruct (agent_run_reply _ _ _ _); simpl; by rewrite <- !app_assoc.
  - intros Hf. by apply poll_chain_hang.
  - intros Hs h Hh bound.
    destruct (poll_forever svc bound h w Hs Hh) as (? & ? & _). done.
Qed.

(** C6. When the [try] suite of a video or image request raises, whether
    from the upload, from a refresh while polling or from the agent, the
    request still ends normally: the error text is put on the page as the
    last element, prefixed as in the source, and the scratch file is gone.
    Removing a file that is already missing changes nothing and raises
    nothing. *)
Theorem C6_raised_error_shown_and_scratch_removed svc fuel q p w e w1 :
  (video_attempt svc fuel q p w = (Raised e, w1) →
   ∃ w', analyze_video svc fuel q p w = (Done (), w')
         ∧ page w' = page w1
                       ++ [StError (lit "An error occurred during analysis: " ++ exn_str e)]
         ∧ trace w' = trace w1
         ∧ disk w' !! p = None)
  ∧ (image_attempt svc fuel q p w = (Raised e, w1) →
     ∃ w', analyze_image svc fuel q p w = (Done (), w')
           ∧ page w' = page w1
                         ++ [StError (lit "An error occurred during analysis: " ++ exn_str e)]
           ∧ trace w' = trace w1
           ∧ disk w' !! p = None)
  ∧ (disk w !! p = None → unlink_missing_ok p w = (Done (), w)).
Proof.
  split; [|split].
  - intros H. rewrite analyze_video_by_attempt, H. eexists. split; [done|].
    simpl. repeat split. apply lookup_delete_eq.
  - intros H. rewrite analyze_image_by_attempt, H. eexists. split; [done|].
    simpl. repeat split. apply lookup_delete_eq.
  - intros H. unfold unlink_missing_ok, modify, set_disk. rewrite delete_id by done.
    by destruct w.
Qed.

(** The three places the suite can raise from. *)
Lemma video_attempt_raised svc fuel q p w e w1 :
  video_attempt svc fuel q p w = (Raised e, w1) ↔
  (upload_file_reply svc p = Err e ∧ w1 = record (UploadFile p) w)
  ∨ (∃ h0, upload_file_reply svc p = Ok h0
           ∧ poll svc fuel h0 (record (UploadFile p) w) = (Raised e, w1))
  ∨ (∃ h0 h w2, upload_file_reply svc p = Ok h0
           ∧ poll svc fuel h0 (record (UploadFile p) w) = (Done h, w2)
           ∧ agent_run_reply svc (video_analysis_prompt q) (Some [h]) None = Err e
           ∧ w1 = record (AgentRun (video_analysis_prompt q) (Some [h]) None) w2).
Proof.
  rewrite video_attempt_run.
  assert (∀ P Q : Prop, (P → Q) → (Q → P) → P ↔ Q) as iff_by by tauto.
  destruct (upload_file_reply svc p) as [h0|e0];
    [destruct (poll svc fuel h0 _) as [[h|e1|] w2] eqn:Hp; simpl;
       [destruct (agent_run_reply _ _ _ _) as [c|e2] eqn:Ha|..]|];
    (apply iff_by;
     [intros ?; simplify_eq; eauto 10
     |intros [[??]|[(?&?&?)|(?&?&?&?&?&?&?)]]; simplify_eq; congruence]).
Qed.

(** C7 (amended).  The request gets past the loop only with a handle whose
    state is no longer PROCESSING.  No state is singled out after that: be
    it ACTIVE or FAILED, the handle is attached to the agent call, and what
    is shown depends on the agent's reply alone.  Every agent call of a
    request carries such a handle. *)
Theorem C7_any_settled_handle_goes_to_the_agent svc fuel q p w h0 h w2 :
  upload_file_reply svc p = Ok h0 →
  poll svc fuel h0 (record (UploadFile p) w) = (Done h, w2) →
  state_name h ≠ PROCESSING
  ∧ analyze_video svc fuel q p w
    = (Done (),
       conclude (agent_run_reply svc (video_analysis_prompt q) (Some [h]) None) p
         (record (AgentRun (video_analysis_prompt q) (Some [h]) None) w2))
  ∧ analyze_image svc fuel q p w
    = (Done (),
       conclude (agent_run_reply svc (image_analysis_prompt q) None (Some [h])) p
         (record (AgentRun (image_analysis_prompt q) None (Some [h])) w2))
  ∧ ∀ prompt attached,
      AgentRun prompt (Some attached) None ∈ trace (analyze_video svc fuel q p w).2 →
      AgentRun prompt (Some attached) None ∈ trace w
      ∨ ∃ h', attached = [h'] ∧ state_name h' ≠ PROCESSING.
Proof.
  intros Hu Hp. split; [by eapply poll_done|].
  split; [by rewrite analyze_video_run, Hu, Hp|].
  split; [by rewrite analyze_image_run, Hu, Hp|].
  intros prompt attached.
  destruct (analyze_video_effects svc fuel q p w) as (evs & els & -> & _ & Hevs & _).
  rewrite elem_of_app, elem_of_cons. intros [Hin|[Hin|Hin]]; [by left|done|].
  right. rewrite Forall_forall in Hevs.
  destruct (Hevs _ Hin eq_refl) as (h' & [= _ ->] & Hh'). eauto.
Qed.

(** C7 as first stated fails: with a staging service that reports FAILED for
    the upload and an agent that answers, pressing Analyze Video shows the
    answer and no error. *)
Lemma C7_counterexample :
  upload_file_reply Stub.failed_staging Stub.scratch0 = Ok Stub.failed_handle
  ∧ state_name Stub.failed_handle = "FAILED"
  ∧ video_tab Stub.failed_staging 0 Sample.video_with_question Stub.empty_world
    = (Done (),
       World ∅
             [StVideo Stub.scratch0; StSubheader (lit "Analysis Result");
              StMarkdown Stub.a_red_circle]
             [UploadFile Stub.scratch0;
              AgentRun (video_analysis_prompt Stub.what_is_shown)
                       (Some [Stub.failed_handle]) None]
             0).
Proof. split; [done|]. split; [done|]. by vm_compute. Qed.

Lemma truthy_nonempty (q : str) : q ≠ [] → truthy q = true.
Proof. by destruct q. Qed.

(** C9. A query that is not empty but all whitespace passes the check of
    the video and image tabs: the tab runs the request block, which shows
    no warning, begins with the upload to the staging service and, once
    staging has settled on a handle, calls the agent with the query inside
    the prompt.  On the text tab the same string as the text to summarize
    is trimmed first and draws the warning, with no agent call. *)
Theorem C9_whitespace_query_is_sent svc fuel ui w data q :
  q ≠ [] → blank q = true →
  (video_file ui = Some data → pressed ui = Some AnalyzeVideo →
   video_user_query ui = q →
   let p := scratch_path ".mp4" w in
   let r := video_tab svc fuel ui w in
   r = analyze_video svc fuel q p (render (StVideo p) (with_scratch ".mp4" data w))
   ∧ (∃ evs, trace r.2 = trace w ++ UploadFile p :: evs)
   ∧ (∀ msg, StWarning msg ∈ page r.2 → StWarning msg ∈ page w)
   ∧ (∀ h0 h w2,
        upload_file_reply svc p = Ok h0 →
        poll svc fuel h0
          (record (UploadFile p) (render (StVideo p) (with_scratch ".mp4" data w)))
        = (Done h, w2) →
        AgentRun (video_analysis_prompt q) (Some [h]) None ∈ trace r.2))
  ∧ (image_file ui = Some data → pressed ui = Some AnalyzeImage →
     image_user_query ui = q →
     let p := scratch_path ".png" w in
     let r := image_tab svc fuel ui w in
     r = analyze_image svc fuel q p (render (StImage p) (with_scratch ".png" data w))
     ∧ (∃ evs, trace r.2 = trace w ++ UploadFile p :: evs)
     ∧ (∀ msg, StWarning msg ∈ page r.2 → StWarning msg ∈ page w)
     ∧ (∀ h0 h w2,
          upload_file_reply svc p = Ok h0 →
          poll svc fuel h0
            (record (UploadFile p) (render (StImage p) (with_scratch ".png" data w)))
          = (Done h, w2) →
          AgentRun (image_analysis_prompt q) None (Some [h]) ∈ trace r.2))
  ∧ (text_file ui = None → pressed ui = Some SummarizeText → text_input ui = q →
     text_tab svc ui w
     = (Done (),
        render (StWarning (lit "Please provide some text or upload a file to summarize."))
          (render (StSubheader (lit "Text Summarization")) w))).
Proof.
  intros Hne Hblank. split; [|split].
  - intros Hf Hp Hq p r.
    assert (r = analyze_video svc fuel q p
                  (render (StVideo p) (with_scratch ".mp4" data w))) as Hr.
    { subst r. rewrite (video_tab_run _ _ _ _ data Hf), (st_button_pressed _ _ Hp), Hq.
      by rewrite truthy_nonempty. }
    split; [done|]. rewrite Hr.
    match goal with |- context [analyze_video svc fuel q p ?w1] =>
      destruct (analyze_video_effects svc fuel q p w1) as (evs & els & Ht & Hpg & _ & Hels)
    end.
    split; [by eexists|]. split.
    + intros msg. rewrite Hpg. simpl. rewrite !elem_of_app.
      intros [[Hin|Hin]|Hin]; [done|by apply list_elem_of_singleton in Hin|].
      rewrite Forall_forall in Hels. by apply Hels in Hin.
    + intros h0 h w2 Hu Hpoll. rewrite analyze_video_run, Hu, Hpoll.
      unfold conclude.
      destruct (agent_run_reply _ _ _ _); simpl; apply elem_of_app; right; by left.
  - intros Hf Hp Hq p r.
    assert (r = analyze_image svc fuel q p
                  (render (StImage p) (with_scratch ".png" data w))) as Hr.
    { subst r. rewrite (image_tab_run _ _ _ _ data Hf), (st_button_pressed _ _ Hp), Hq.
      by rewrite truthy_nonempty. }
    split; [done|]. rewrite Hr.
    match goal with |- context [analyze_image svc fuel q p ?w1] =>
      destruct (analyze_image_effects svc fuel q p w1) as (evs & els & Ht & Hpg & _ & Hels)
    end.
    split; [by eexists|]. split.
    + intros msg. rewrite Hpg. simpl. rewrite !elem_of_app.
      intros [[Hin|Hin]|Hin]; [done|by apply list_elem_of_singleton in Hin|].
      rewrite Forall_forall in Hels. by apply Hels in Hin.
    + intros h0 h w2 Hu Hpoll. rewrite analyze_image_run, Hu, Hpoll.
      unfold conclude.
      destruct (agent_run_reply _ _ _ _); simpl; apply elem_of_app; right; by left.
  - intros Hf Hp Hq. rewrite text_tab_run, Hf, (st_button_pressed _ _ Hp), Hq.
    by rewrite truthy_strip, Hblank.
Qed.

(** C10. An uploaded text file is decoded while the text tab is rendered,
    pressed button or not.  When the bytes are not UTF-8 the decode error
    ends the tab right after its heading: the handler of the Summarize Text
    button is never entered, so nothing is rendered for the error and the
    agent is not called; with Summarize Text pressed the error ends the
    whole page script.  Such files exist. *)
Theorem C10_decode_error_is_not_caught svc fuel ui w data e :
  text_file ui = Some data → decode data = Err e →
  text_tab svc ui w = (Raised e, render (StSubheader (lit "Text Summarization")) w)
  ∧ (pressed ui = Some SummarizeText →
     (page_script svc fuel ui w).1 = Raised e
     ∧ trace (page_script svc fuel ui w).2 = trace w)
  ∧ ∃ bad e', decode bad = Err e'.
Proof.
  intros Hf He.
  assert (∀ w0, text_tab svc ui w0
                = (Raised e, render (StSubheader (lit "Text Summarization")) w0)) as Ht.
  { intros w0. by rewrite text_tab_run, Hf, He. }
  split; [apply Ht|]. split; [|by exists [xff]%byte, (decode_error "invalid start byte")].
  intros Hp. rewrite page_script_run. cbv zeta.
  match goal with |- context [video_tab svc fuel ui ?w0] =>
    destruct (video_tab_idle svc fuel ui w0) as (w1 & -> & Hq1);
      [by eapply st_button_other|]
  end.
  destruct (image_tab_idle svc fuel ui w1) as (w2 & -> & Hq2);
    [by eapply st_button_other|].
  rewrite Ht. simpl. split; [done|].
  destruct Hq1 as (Ht1 & _ & _ & _). destruct Hq2 as (Ht2 & _ & _ & _).
  simpl in *. congruence.
Qed.

(** C5. With a text file uploaded whose bytes decode to [text], the text to
    summarize is [text] whatever was typed into the box.  Pressing Summarize
    Text then goes ahead only if [text] is not blank: a blank text draws the
    warning and no agent call; otherwise the agent is called once, with the
    prompt built from [text]. *)
Theorem C5_uploaded_text_takes_precedence svc ui w data text :
  text_file ui = Some data → decode data = Ok text →
  pressed ui = Some SummarizeText →
  let w1 := render (StSubheader (lit "Text Summarization")) w in
  text_content ui w = (Done text, w)
  ∧ (blank text = true →
     text_tab svc ui w
     = (Done (),
        render (StWarning (lit "Please provide some text or upload a file to summarize."))
               w1))
  ∧ (blank text = false →
     text_tab svc ui w = summarize_text svc (summary_prompt_input ui) text w1
     ∧ trace (text_tab svc ui w).2
       = trace w ++ [AgentRun (summary_prompt (summary_prompt_input ui) text) None None]).
Proof.
  intros Hf Hd Hp w1. split; [|split].
  - unfold text_content. by rewrite Hf, Hd.
  - intros Hb. rewrite text_tab_run, Hf, Hd, (st_button_pressed _ _ Hp).
    by rewrite truthy_strip, Hb.
  - intros Hb.
    assert (text_tab svc ui w = summarize_text svc (summary_prompt_input ui) text w1)
      as ->.
    { rewrite text_tab_run, Hf, Hd, (st_button_pressed _ _ Hp).
      by rewrite truthy_strip, Hb. }
    split; [done|]. rewrite summarize_text_run.
    by destruct (agent_run_reply _ _ _ _).
Qed.

(** C8 (the code departs from the claim).  With an uploaded text file that
    is not UTF-8 and Summarize Text pressed, the page script ends by the
    decode error itself: nothing after the heading of the text tab is
    rendered, neither an inline error nor the closing style block. *)
Theorem C8_decode_error_escapes_the_page_script svc fuel w :
  let ui := Widgets None [] None [] [] (Some [xff]%byte) [] (Some SummarizeText) in
  page_script svc fuel ui w
  = (Raised (decode_error "invalid start byte"),
     World (disk w)
       (page w ++ [StTitle (lit "Phidata Media AI Summarizer Agent "
                              ++ [0x1F3A5; 0x1F5BC; 0xFE0F]%N);
                   StHeader (lit "Powered by Gemini 2.0 Flash Exp");
                   StInfo (lit "Upload a video file to begin analysis.");
                   StInfo (lit "Upload an image file to begin analysis.");
                   StSubheader (lit "Text Summarization")])
       (trace w) (refreshed w)).
Proof.
  intros ui. unfold page_script, video_tab, image_tab, text_tab, text_content,
    st.title, st.header, st.info, st.subheader. run.
  unfold render. simpl. by rewrite <- !app_assoc.
Qed.

(** Everything else is caught: an execution of the page script ends by an
    exception only if that exception is the decode error of the uploaded
    text file. *)
Lemma page_script_raises_only_decode_error svc fuel ui w e :
  (page_script svc fuel ui w).1 = Raised e →
  ∃ data, text_file ui = Some data ∧ decode data = Err e.
Proof.
  rewrite page_script_run. cbv zeta.
  match goal with |- context [video_tab svc fuel ui ?w0] => generalize w0 end.
  intros w0.
  assert (∀ w, (video_tab svc fuel ui w).1 ≠ Raised e) as Hv.
  { intros w'. unfold video_tab. destruct (video_file ui) as [d|].
    - rewrite scratch_written. unfold st.video, st.warning. run.
      destruct (st_button ui AnalyzeVideo); [|done].
      destruct (truthy (video_user_query ui)); [|done]. simpl.
      match goal with |- context [analyze_video svc fuel ?q ?p ?w1] =>
        by destruct (analyze_video_removes_scratch svc fuel q p w1) as [[-> _]| ->]
      end.
    - done. }
  assert (∀ w, (image_tab svc fuel ui w).1 ≠ Raised e) as Hi.
  { intros w'. unfold image_tab. destruct (image_file ui) as [d|].
    - rewrite scratch_written. unfold st.image, st.warning. run.
      destruct (st_button ui AnalyzeImage); [|done].
      destruct (truthy (image_user_query ui)); [|done]. simpl.
      match goal with |- context [analyze_image svc fuel ?q ?p ?w1] =>
        by destruct (analyze_image_removes_scratch svc fuel q p w1) as [[-> _]| ->]
      end.
    - done. }
  specialize (Hv w0).
  destruct (video_tab svc fuel ui w0) as [[[]|e1|] w1]; simpl in *; [|congruence|done].
  specialize (Hi w1).
  destruct (image_tab svc fuel ui w1) as [[[]|e2|] w2]; simpl in *; [|congruence|done].
  rewrite text_tab_run. cbv zeta.
  destruct (text_file ui) as [data|].
  - destruct (decode data) as [text|e3] eqn:Hd; [|simpl; intros [= ->]; eauto].
    destruct (st_button ui SummarizeText); [|done].
    destruct (truthy (strip text)); [|done].
    rewrite summarize_text_run. cbv zeta.
    by destruct (agent_run_reply _ _ _ _).
  - destruct (st_button ui SummarizeText); [|done].
    destruct (truthy (strip (text_input ui))); [|done].
    rewrite summarize_text_run. cbv zeta.
    by destruct (agent_run_reply _ _ _ _).
Qed.

Lemma occurs_in_app_l a pre b : occurs_in a b → occurs_in a (pre ++ b).
Proof. intros (l & r & ->). exists (pre ++ l), r. by rewrite <- app_assoc. Qed.

Lemma occurs_in_here a post : occurs_in a (a ++ post).
Proof. by exists [], post. Qed.

Ltac find_occurrence :=
  repeat first [ apply occurs_in_here | apply occurs_in_app_l ].

(** C4 (amended).  Each prompt is the tab's template around the user's
    strings: the query of the video and image tabs and the text to summarize
    occur in it as they are, and so do the custom instructions unless they
    are blank, in which case the prompt is the one for no instructions.  The
    prompt an execution hands to the agent is this function of the inputs,
    whatever the world, the services and the fuel. *)
Theorem C4_prompt_is_a_function_of_the_inputs :
  (∀ q, occurs_in q (video_analysis_prompt q))
  ∧ (∀ q, occurs_in q (image_analysis_prompt q))
  ∧ (∀ instructions text,
       occurs_in text (summary_prompt instructions text)
       ∧ (blank instructions = false →
          occurs_in instructions (summary_prompt instructions text))
       ∧ (blank instructions = true →
          summary_prompt instructions text = summary_prompt [] text))
  ∧ (∀ svc fuel q p w prompt videos images,
       AgentRun prompt videos images ∈ trace (analyze_video svc fuel q p w).2 →
       AgentRun prompt videos images ∈ trace w ∨ prompt = video_analysis_prompt q)
  ∧ (∀ svc fuel q p w prompt videos images,
       AgentRun prompt videos images ∈ trace (analyze_image svc fuel q p w).2 →
       AgentRun prompt videos images ∈ trace w ∨ prompt = image_analysis_prompt q)
  ∧ (∀ svc instructions text w,
       trace (summarize_text svc instructions text w).2
       = trace w ++ [AgentRun (summary_prompt instructions text) None None]).
Proof.
  split; [|split; [|split; [|split; [|split]]]].
  - intros q. unfold video_analysis_prompt. find_occurrence.
  - intros q. unfold image_analysis_prompt. find_occurrence.
  - intros instructions text. unfold summary_prompt. rewrite !truthy_strip.
    split; [find_occurrence|].
    split; intros ->; cbn [negb]; [find_occurrence|done].
  - intros svc fuel q p w prompt videos images.
    destruct (analyze_video_effects svc fuel q p w) as (evs & els & -> & _ & Hevs & _).
    rewrite elem_of_app, elem_of_cons. intros [Hin|[Hin|Hin]]; [by left|done|].
    right. rewrite Forall_forall in Hevs.
    by destruct (Hevs _ Hin eq_refl) as (h' & [= -> _ _] & _).
  - intros svc fuel q p w prompt videos images.
    destruct (analyze_image_effects svc fuel q p w) as (evs & els & -> & _ & Hevs & _).
    rewrite elem_of_app, elem_of_cons. intros [Hin|[Hin|Hin]]; [by left|done|].
    right. rewrite Forall_forall in Hevs.
    by destruct (Hevs _ Hin eq_refl) as (h' & [= -> _ _] & _).
  - intros svc instructions text w. rewrite summarize_text_run.
    by destruct (agent_run_reply _ _ _ _).
Qed.

(** C4 as first stated fails: instructions that consist of one tab are left
    out of the prompt, which has no tab in it. *)
Lemma C4_counterexample :
  ¬ occurs_in Sample.tab (summary_prompt Sample.tab (lit "x")).
Proof.
  intros H. apply (occurs_in_elem _ _ 9%N) in H; [|by left].
  revert H. apply (proj1 (bool_decide_eq_false _)). by vm_compute.
Qed.

Lemma C4_witness :
  blank Sample.bullets = false
  ∧ occurs_in Sample.bullets (summary_prompt Sample.bullets (lit "abc")).
Proof.
  split; [reflexivity|].
  apply (proj1 (proj2 (proj1 (proj2 (proj2 C4_prompt_is_a_function_of_the_inputs))
                        Sample.bullets (lit "abc")))).
  reflexivity.
Defined.

Lemma C2_witness :
  video_user_query Sample.video_without_query = []
  ∧ trace (page_script Stub.slow_staging 5 Sample.video_without_query
             Stub.empty_world).2 = [].
Proof.
  split; [reflexivity|].
  apply (proj1 (C2_empty_query_warns_without_remote_calls Stub.slow_staging 5
                  Sample.video_without_query Stub.empty_world Stub.clip));
    reflexivity.
Defined.

Lemma C3_witness :
  poll Stub.slow_staging 2 Stub.processing_handle Stub.empty_world
  = (Done Stub.active_handle,
     World ∅ [] [Sleep 1; GetFile "files/scratch"; Sleep 1; GetFile "files/scratch"] 2).
Proof.
  apply (C3_polling_ends_with_processing Stub.slow_staging
           [Stub.processing_handle; Stub.processing_handle] Stub.active_handle
           2 Stub.empty_world).
  - simpl. repeat split; reflexivity.
  - repeat constructor.
  - discriminate.
  - simpl. lia.
Defined.

Lemma C5_witness :
  decode Sample.notes_txt = Ok (lit "notes")
  ∧ trace (text_tab Stub.slow_staging Sample.typed_and_uploaded Stub.empty_world).2
    = [AgentRun (summary_prompt [] (lit "notes")) None None].
Proof.
  split; [reflexivity|].
  apply (C5_uploaded_text_takes_precedence Stub.slow_staging
           Sample.typed_and_uploaded Stub.empty_world Sample.notes_txt (lit "notes"));
    reflexivity.
Defined.

Lemma C6_witness :
  video_attempt Stub.staging_down 3 Stub.what_is_shown Stub.scratch0 Stub.empty_world
  = (Raised Stub.unavailable, record (UploadFile Stub.scratch0) Stub.empty_world)
  ∧ ∃ w', analyze_video Stub.staging_down 3 Stub.what_is_shown Stub.scratch0
            Stub.empty_world = (Done (), w')
          ∧ page w' = [StError (lit "An error occurred during analysis: "
                                  ++ lit "503 try again later")]
          ∧ trace w' = [UploadFile Stub.scratch0]
          ∧ disk w' !! Stub.scratch0 = None.
Proof.
  split; [reflexivity|].
  apply (proj1 (C6_raised_error_shown_and_scratch_removed Stub.staging_down 3
                  Stub.what_is_shown Stub.scratch0 Stub.empty_world Stub.unavailable
                  (record (UploadFile Stub.scratch0) Stub.empty_world))).
  reflexivity.
Defined.

Lemma C7_witness :
  state_name Stub.failed_handle ≠ PROCESSING
  ∧ analyze_video Stub.failed_staging 0 Stub.what_is_shown Stub.scratch0
      Stub.empty_world
    = (Done (),
       conclude (Ok Stub.a_red_circle) Stub.scratch0
         (record (AgentRun (video_analysis_prompt Stub.what_is_shown)
                    (Some [Stub.failed_handle]) None)
            (record (UploadFile Stub.scratch0) Stub.empty_world))).
Proof.
  pose proof (C7_any_settled_handle_goes_to_the_agent Stub.failed_staging 0
                Stub.what_is_shown Stub.scratch0 Stub.empty_world Stub.failed_handle
                Stub.failed_handle
                (record (UploadFile Stub.scratch0) Stub.empty_world)
                eq_refl eq_refl) as (H1 & H2 & _).
  split; [exact H1|exact H2].
Defined.

Lemma C9_witness :
  Sample.spaces ≠ [] ∧ blank Sample.spaces = true
  ∧ ∃ evs, trace (video_tab Stub.slow_staging 5 Sample.video_with_spaces
                    Stub.empty_world).2
           = [] ++ UploadFile (scratch_path ".mp4" Stub.empty_world) :: evs.
Proof.
  split; [discriminate|]. split; [reflexivity|].
  apply (proj1 (C9_whitespace_query_is_sent Stub.slow_staging 5
                  Sample.video_with_spaces Stub.empty_world Stub.clip Sample.spaces
                  ltac:(discriminate) eq_refl));
    reflexivity.
Defined.

Lemma C10_witness :
  decode Sample.latin1_txt = Err (decode_error "unexpected end of data")
  ∧ text_tab Stub.slow_staging Sample.undecodable_upload Stub.empty_world
    = (Raised (decode_error "unexpected end of data"),
       render (StSubheader (lit "Text Summarization")) Stub.empty_world).
Proof.
  split; [reflexivity|].
  apply (C10_decode_error_is_not_caught Stub.slow_staging 0
           Sample.undecodable_upload Stub.empty_world Sample.latin1_txt);
    reflexivity.
Defined.

(** ** Sample executions *)

Example decode_ascii : decode Sample.notes_txt = Ok (lit "notes").
Proof. reflexivity. Qed.

Example decode_euro_and_camera :
  decode [xe2; x82; xac; xf0; x9f; x8e; xa5]%byte = Ok [0x20AC; 0x1F3A5]%N.
Proof. reflexivity. Qed.

Example decode_refuses_overlong :
  decode [xc0; x80]%byte = Err (decode_error "invalid start byte").
Proof. reflexivity. Qed.

Example decode_refuses_surrogate :
  decode [xed; xa0; x80]%byte = Err (decode_error "invalid continuation byte").
Proof. reflexivity. Qed.

Example strip_both_ends : strip (lit "  a b  ") = lit "a b".
Proof. reflexivity. Qed.

(** The end-to-end scenario: a ten byte image, the query "What is shown?",
    staging active at once, the agent answering "A red circle.". *)
Example end_to_end_image :
  let r := image_tab Stub.ready_staging 0 Sample.image_with_query Stub.empty_world in
  r.1 = Done ()
  ∧ page r.2 = [StImage (Path 0 ".png"); StSubheader (lit "Analysis Result");
                StMarkdown (lit "A red circle.")]
  ∧ trace r.2 = [UploadFile (Path 0 ".png");
                 AgentRun (image_analysis_prompt (lit "What is shown?")) None
                          (Some [Stub.active_handle])]
  ∧ disk r.2 = ∅.
Proof. by vm_compute. Qed.

(** The staging service that never leaves PROCESSING: the request is still
    waiting, scratch file on disk, however long it is followed. *)
Example stuck_request_after_three_rounds :
  let r := analyze_video Stub.stuck_staging 3 Stub.what_is_shown Stub.scratch0
             (World {[Stub.scratch0 := Stub.clip]} [] [] 0) in
  r.1 = Hang
  ∧ trace r.2 = [UploadFile Stub.scratch0; Sleep 1; GetFile "files/scratch";
                 Sleep 1; GetFile "files/scratch"; Sleep 1; GetFile "files/scratch"]
  ∧ disk r.2 !! Stub.scratch0 = Some Stub.clip.
Proof. by vm_compute. Qed.

(** * More of the script *)

(** ** The loop, whatever the staging service does *)

Section PollShape.
Variable svc : services.

(** However the loop ends (a settled handle, a raising refresh, or not
    within the rounds followed), what it has added to the trace is one
    [Sleep 1] and one [GetFile] per handle it has seen in state PROCESSING,
    in that order, and the service has answered as many refreshes. *)
Lemma poll_shape fuel : ∀ h w, ∃ hs,
  trace (poll svc fuel h w).2 = trace w ++ polling hs
  ∧ refreshed (poll svc fuel h w).2 = refreshed w + length hs
  ∧ Forall (λ h, state_name h = PROCESSING) hs
  ∧ length hs ≤ fuel.
Proof.
  induction fuel as [|fuel IH]; intros h w.
  - exists []. simpl. case_decide; simpl; rewrite app_nil_r; repeat split; auto; lia.
  - destruct (decide (state_name h = PROCESSING)) as [E|E].
    + rewrite poll_step by done.
      destruct (get_file_reply _ _ _) as [h'|e].
      * destruct (IH h' (next_refresh (record (GetFile (name h)) (record (Sleep 1) w))))
          as (hs & -> & -> & Hhs & Hlen).
        exists (h :: hs). simpl. rewrite <- !app_assoc. simpl.
        repeat split; [lia|by constructor|lia].
      * exists [h]. simpl. rewrite <- !app_assoc. simpl.
        repeat split; [lia|by repeat constructor|lia].
    + rewrite poll_settled by done. exists []. simpl. rewrite app_nil_r.
      repeat split; auto; lia.
Qed.

End PollShape.

(** ** What one request, one tab, one execution add to the trace *)

Section Traces.
Variable svc : services.

Lemma analyze_video_events fuel q p w :
  ∃ evs, trace (analyze_video svc fuel q p w).2 = trace w ++ evs
         ∧ request_events p (video_call q) evs.
Proof.
  rewrite analyze_video_run.
  destruct (upload_file_reply svc p) as [h0|e].
  + pose proof (poll_shape svc fuel h0 (record (UploadFile p) w)) as (hs & Ht & _ & Hhs & _).
    pose proof (poll_done svc fuel h0 (record (UploadFile p) w)) as Hd.
    destruct (poll svc fuel h0 _) as [[h|e|] w2]; simpl in *.
    * exists (UploadFile p :: polling hs ++ [video_call q h]). split.
      { unfold conclude, video_call.
        destruct (agent_run_reply _ _ _ _); simpl; rewrite Ht, <- !app_assoc; done. }
      exists hs, [video_call q h]. repeat split; [done|]. right. eauto.
    * exists (UploadFile p :: polling hs ++ []). rewrite app_nil_r.
      split; [by rewrite Ht, <- app_assoc|].
      exists hs, []. rewrite app_nil_r. repeat split; auto.
    * exists (UploadFile p :: polling hs ++ []). rewrite app_nil_r.
      split; [by rewrite Ht, <- app_assoc|].
      exists hs, []. rewrite app_nil_r. repeat split; auto.
  + exists [UploadFile p]. split; [done|]. exists [], []. repeat split; auto.
Qed.

Lemma analyze_image_events fuel q p w :
  ∃ evs, trace (analyze_image svc fuel q p w).2 = trace w ++ evs
         ∧ request_events p (image_call q) evs.
Proof.
  rewrite analyze_image_run.
  destruct (upload_file_reply svc p) as [h0|e].
  + pose proof (poll_shape svc fuel h0 (record (UploadFile p) w)) as (hs & Ht & _ & Hhs & _).
    pose proof (poll_done svc fuel h0 (record (UploadFile p) w)) as Hd.
    destruct (poll svc fuel h0 _) as [[h|e|] w2]; simpl in *.
    * exists (UploadFile p :: polling hs ++ [image_call q h]). split.
      { unfold conclude, image_call.
        destruct (agent_run_reply _ _ _ _); simpl; rewrite Ht, <- !app_assoc; done. }
      exists hs, [image_call q h]. repeat split; [done|]. right. eauto.
    * exists (UploadFile p :: polling hs ++ []). rewrite app_nil_r.
      split; [by rewrite Ht, <- app_assoc|].
      exists hs, []. rewrite app_nil_r. repeat split; auto.
    * exists (UploadFile p :: polling hs ++ []). rewrite app_nil_r.
      split; [by rewrite Ht, <- app_assoc|].
      exists hs, []. rewrite app_nil_r. repeat split; auto.
  + exists [UploadFile p]. split; [done|]. exists [], []. repeat split; auto.
Qed.

(** X4. Whatever the services answer and however the request ends, the
    events of an analysis request are: the upload of the scratch file, then
    one-second waits each followed by one refresh, then at most one agent
    call, with the tab's prompt and a handle that is no longer processing. *)
Theorem request_trace_shape fuel q p w :
  (∃ evs, trace (analyze_video svc fuel q p w).2 = trace w ++ evs
          ∧ request_events p (video_call q) evs)
  ∧ (∃ evs, trace (analyze_image svc fuel q p w).2 = trace w ++ evs
            ∧ request_events p (image_call q) evs).
Proof. split; [apply analyze_video_events|apply analyze_image_events]. Qed.

Lemma st_button_true ui b : st_button ui b = true → pressed ui = Some b.
Proof. unfold st_button. by rewrite bool_decide_eq_true. Qed.



Lemma text_tab_events ui w :
  ∃ evs, trace (text_tab svc ui w).2 = trace w ++ evs
    ∧ (evs = []
       ∨ pressed ui = Some SummarizeText
         ∧ ∃ text, evs = [AgentRun (summary_prompt (summary_prompt_input ui) text)
                            None None]).
Proof.
  destruct (st_button ui SummarizeText) eqn:Hb.
  - apply st_button_true in Hb as Hp.
    assert (∀ text w1, trace w1 = trace w →
      ∃ evs, trace (summarize_text svc (summary_prompt_input ui) text w1).2
             = trace w ++ evs
        ∧ (evs = [] ∨ pressed ui = Some SummarizeText
           ∧ ∃ text, evs = [AgentRun (summary_prompt (summary_prompt_input ui) text)
                              None None])) as Hs.
    { intros text w1 Hw1. eexists. split; [|right; split; [done|by eexists]].
      rewrite summarize_text_run. cbv zeta.
      destruct (agent_run_reply _ _ _ _); simpl; by rewrite Hw1. }
    rewrite text_tab_run, Hb. cbv zeta.
    destruct (text_file ui) as [data|].
    + destruct (decode data) as [text|e].
      * destruct (truthy (strip text)); [by apply Hs|].
        exists []. simpl. rewrite app_nil_r. auto.
      * exists []. simpl. rewrite app_nil_r. auto.
    + destruct (truthy (strip (text_input ui))); [by apply Hs|].
      exists []. simpl. rewrite app_nil_r. auto.
  - destruct (text_tab_idle svc ui w Hb) as (Ht & _).
    exists []. rewrite app_nil_r. auto.
Qed.

End Traces.

Section PageTrace.
Variable svc : services.



End PageTrace.

(** ** The disk *)

Section Disk.
Variable svc : services.

Lemma analyze_video_disk fuel q p w (r := analyze_video svc fuel q p w) :
  r.1 = Done () ∧ disk r.2 = delete p (disk w)
  ∨ r.1 = Hang ∧ disk r.2 = disk w.
Proof.
  subst r. rewrite analyze_video_run.
  destruct (upload_file_reply svc p) as [h0|e]; [|by left].
  pose proof (poll_frame svc fuel h0 (record (UploadFile p) w)) as [Hd _].
  destruct (poll svc fuel h0 _) as [[h|e|] w2]; simpl in *.
  - left. unfold conclude. destruct (agent_run_reply _ _ _ _); simpl; by rewrite Hd.
  - left. by rewrite Hd.
  - by right.
Qed.

Lemma analyze_image_disk fuel q p w (r := analyze_image svc fuel q p w) :
  r.1 = Done () ∧ disk r.2 = delete p (disk w)
  ∨ r.1 = Hang ∧ disk r.2 = disk w.
Proof.
  subst r. rewrite analyze_image_run.
  destruct (upload_file_reply svc p) as [h0|e]; [|by left].
  pose proof (poll_frame svc fuel h0 (record (UploadFile p) w)) as [Hd _].
  destruct (poll svc fuel h0 _) as [[h|e|] w2]; simpl in *.
  - left. unfold conclude. destruct (agent_run_reply _ _ _ _); simpl; by rewrite Hd.
  - left. by rewrite Hd.
  - by right.
Qed.

Lemma scratch_removed sfx data w :
  delete (scratch_path sfx w) (disk (with_scratch sfx data w)) = disk w.
Proof. unfold with_scratch. simpl. apply delete_insert_id, scratch_path_fresh. Qed.

(** X2. A video or image request that ends, with the answer or with an
    error shown, leaves the disk exactly as it was before the tab was
    rendered: the scratch copy it wrote is the one file it removes. *)
Theorem ended_request_restores_the_disk fuel ui w data :
  (video_file ui = Some data → pressed ui = Some AnalyzeVideo →
   video_user_query ui ≠ [] →
   (video_tab svc fuel ui w).1 ≠ Hang →
   (video_tab svc fuel ui w).1 = Done ()
   ∧ disk (video_tab svc fuel ui w).2 = disk w)
  ∧ (image_file ui = Some data → pressed ui = Some AnalyzeImage →
     image_user_query ui ≠ [] →
     (image_tab svc fuel ui w).1 ≠ Hang →
     (image_tab svc fuel ui w).1 = Done ()
     ∧ disk (image_tab svc fuel ui w).2 = disk w).
Proof.
  split; intros Hf Hp Hq.
  - rewrite (video_tab_run _ _ _ _ data Hf), (st_button_pressed _ _ Hp),
      (truthy_nonempty _ Hq). cbv zeta.
    match goal with |- context [analyze_video svc fuel ?q ?p ?w1] =>
      destruct (analyze_video_disk fuel q p w1) as [[-> ->]|[-> _]]; [|done]
    end.
    intros _. split; [done|]. apply scratch_removed.
  - rewrite (image_tab_run _ _ _ _ data Hf), (st_button_pressed _ _ Hp),
      (truthy_nonempty _ Hq). cbv zeta.
    match goal with |- context [analyze_image svc fuel ?q ?p ?w1] =>
      destruct (analyze_image_disk fuel q p w1) as [[-> ->]|[-> _]]; [|done]
    end.
    intros _. split; [done|]. apply scratch_removed.
Qed.

Lemma video_tab_keeps fuel ui w : disk w ⊆ disk (video_tab svc fuel ui w).2.
Proof.
  destruct (video_file ui) as [data|] eqn:Hf; [|by unfold video_tab; rewrite Hf].
  rewrite (video_tab_run _ _ _ _ data Hf). cbv zeta.
  assert (disk w ⊆ disk (with_scratch ".mp4" data w)) as Hs
    by apply insert_subseteq, scratch_path_fresh.
  destruct (st_button ui AnalyzeVideo); [|done].
  destruct (truthy (video_user_query ui)); [|done].
  match goal with |- context [analyze_video svc fuel ?q ?p ?w1] =>
    destruct (analyze_video_disk fuel q p w1) as [[_ ->]|[_ ->]]; [|done]
  end.
  simpl. by rewrite delete_insert_id by apply scratch_path_fresh.
Qed.

Lemma image_tab_keeps fuel ui w : disk w ⊆ disk (image_tab svc fuel ui w).2.
Proof.
  destruct (image_file ui) as [data|] eqn:Hf; [|by unfold image_tab; rewrite Hf].
  rewrite (image_tab_run _ _ _ _ data Hf). cbv zeta.
  assert (disk w ⊆ disk (with_scratch ".png" data w)) as Hs
    by apply insert_subseteq, scratch_path_fresh.
  destruct (st_button ui AnalyzeImage); [|done].
  destruct (truthy (image_user_query ui)); [|done].
  match goal with |- context [analyze_image svc fuel ?q ?p ?w1] =>
    destruct (analyze_image_disk fuel q p w1) as [[_ ->]|[_ ->]]; [|done]
  end.
  simpl. by rewrite delete_insert_id by apply scratch_path_fresh.
Qed.

(** The text tab has no dealings with the disk or with the staging
    service. *)
Lemma text_tab_disk ui w :
  disk (text_tab svc ui w).2 = disk w
  ∧ refreshed (text_tab svc ui w).2 = refreshed w
  ∧ (text_tab svc ui w).1 ≠ Hang.
Proof.
  rewrite text_tab_run. cbv zeta.
  assert (∀ text w1,
    disk (summarize_text svc (summary_prompt_input ui) text w1).2 = disk w1
    ∧ refreshed (summarize_text svc (summary_prompt_input ui) text w1).2 = refreshed w1
    ∧ (summarize_text svc (summary_prompt_input ui) text w1).1 ≠ Hang) as Hs.
  { intros text w1. rewrite summarize_text_run. cbv zeta.
    by destruct (agent_run_reply _ _ _ _). }
  destruct (text_file ui) as [data|].
  - destruct (decode data) as [text|e]; [|done].
    destruct (st_button ui SummarizeText); [|done].
    destruct (truthy (strip text)); [exact (Hs _ _)|done].
  - destruct (st_button ui SummarizeText); [|done].
    destruct (truthy (strip (text_input ui))); [exact (Hs _ _)|done].
Qed.

(** X1. An execution of the page never removes or rewrites a file that was
    on disk when it began: every such file is there afterwards with the
    same content, whatever is uploaded, pressed or answered. *)
Theorem page_script_keeps_existing_files fuel ui w p content :
  disk w !! p = Some content →
  disk (page_script svc fuel ui w).2 !! p = Some content.
Proof.
  intros Hin. eapply lookup_weaken; [exact Hin|]. clear Hin.
  rewrite page_script_run. cbv zeta.
  match goal with |- context [video_tab svc fuel ui ?w0] =>
    change (disk w) with (disk w0); generalize w0
  end.
  intros w0. pose proof (video_tab_keeps fuel ui w0) as H1.
  destruct (video_tab svc fuel ui w0) as [[[]|e|] w1]; simpl in *; [|done..].
  pose proof (image_tab_keeps fuel ui w1) as H2.
  destruct (image_tab svc fuel ui w1) as [[[]|e|] w2]; simpl in *;
    [|by etrans..].
  pose proof (text_tab_disk ui w2) as (H3 & _).
  destruct (text_tab svc ui w2) as [[[]|e|] w3]; simpl in *;
    rewrite H3; by etrans.
Qed.

(** X13. With nothing uploaded on the video and image tabs, an execution
    leaves the disk and the staging service as they were and always ends,
    whatever button is reported pressed and whatever the services would
    answer. *)
Theorem no_media_no_disk_no_staging fuel ui w :
  video_file ui = None → image_file ui = None →
  disk (page_script svc fuel ui w).2 = disk w
  ∧ refreshed (page_script svc fuel ui w).2 = refreshed w
  ∧ (page_script svc fuel ui w).1 ≠ Hang
  ∧ Forall (λ e, is_agent_run e = true) 
           (drop (length (trace w)) (trace (page_script svc fuel ui w).2)).
Proof.
  intros Hv Hi. rewrite page_script_run. cbv zeta.
  unfold video_tab, image_tab. rewrite Hv, Hi. unfold st.info. run.
  match goal with |- context [text_tab svc ui ?w2] =>
    pose proof (text_tab_disk ui w2) as (H1 & H2 & H3);
    destruct (text_tab_events svc ui w2) as (evs & Ht & Hev)
  end.
  simpl in *.
  assert (Forall (λ e, is_agent_run e = true) evs) as Hall.
  { destruct Hev as [->|(_ & text & ->)]; by repeat constructor. }
  destruct (text_tab svc ui _) as [[[]|e|] w3]; simpl in *;
    rewrite ?Ht, ?drop_app_length; done.
Qed.

End Disk.

(** ** Requests from the button to the page *)

Section EndToEnd.
Variable svc : services.

(** The loop when a refresh raises: the handles of [waiting] and then [last]
    were all processing, and the refresh of [last] is refused. *)
Lemma poll_chain_raise waiting : ∀ last e fuel w,
  chain svc (refreshed w) (waiting ++ [last]) →
  Forall (λ h, state_name h = PROCESSING) (waiting ++ [last]) →
  get_file_reply svc (refreshed w + length waiting) (name last) = Err e →
  length waiting < fuel →
  poll svc fuel (hd last waiting) w
  = (Raised e,
     World (disk w) (page w) (trace w ++ polling (waiting ++ [last]))
           (refreshed w + S (length waiting))).
Proof.
  induction waiting as [|h tl IH]; intros last e fuel w Hc Hw He Hf.
  - destruct fuel as [|fuel]; [simpl in Hf; lia|].
    apply Forall_cons in Hw as [Hl _]. simpl hd. rewrite poll_step by done.
    simpl in He. rewrite Nat.add_0_r in He. rewrite He. simpl.
    unfold next_refresh, record. simpl. rewrite <- app_assoc. simpl.
    do 2 f_equal. lia.
  - destruct fuel as [|fuel]; [simpl in Hf; lia|].
    apply Forall_cons in Hw as [Hh Hw]. change (hd last (h :: tl)) with h.
    rewrite poll_step by done.
    assert (get_file_reply svc (refreshed w) (name h) = Ok (hd last tl)
            ∧ chain svc (S (refreshed w)) (tl ++ [last])) as [-> Hc'].
    { destruct tl; simpl in *; tauto. }
    rewrite (IH last e); simpl in *; [|done|done| |lia].
    + f_equal. f_equal; [|lia]. by rewrite <- !app_assoc.
    + by rewrite <- He, Nat.add_succ_r.
Qed.

(** X3. From the button to the page, when all goes well: the staging
    service hands out [waiting ++ [ready]] and the agent answers [content].
    The tab then ends with the preview, the heading "Analysis Result" and
    [content] as it came, the trace is the upload, the rounds of polling and
    the one agent call, and the disk is as before. *)
Theorem analysis_shows_the_answer fuel ui w data waiting ready content :
  chain svc (refreshed w) (waiting ++ [ready]) →
  Forall (λ h, state_name h = PROCESSING) waiting →
  state_name ready ≠ PROCESSING →
  length waiting ≤ fuel →
  (video_file ui = Some data → pressed ui = Some AnalyzeVideo →
   video_user_query ui ≠ [] →
   let p := scratch_path ".mp4" w in
   let prompt := video_analysis_prompt (video_user_query ui) in
   upload_file_reply svc p = Ok (hd ready waiting) →
   agent_run_reply svc prompt (Some [ready]) None = Ok content →
   video_tab svc fuel ui w
   = (Done (),
      World (disk w)
        (page w ++ [StVideo p; StSubheader (lit "Analysis Result"); StMarkdown content])
        (trace w ++ UploadFile p :: polling waiting
           ++ [AgentRun prompt (Some [ready]) None])
        (refreshed w + length waiting)))
  ∧ (image_file ui = Some data → pressed ui = Some AnalyzeImage →
     image_user_query ui ≠ [] →
     let p := scratch_path ".png" w in
     let prompt := image_analysis_prompt (image_user_query ui) in
     upload_file_reply svc p = Ok (hd ready waiting) →
     agent_run_reply svc prompt None (Some [ready]) = Ok content →
     image_tab svc fuel ui w
     = (Done (),
        World (disk w)
          (page w ++ [StImage p; StSubheader (lit "Analysis Result"); StMarkdown content])
          (trace w ++ UploadFile p :: polling waiting
             ++ [AgentRun prompt None (Some [ready])])
          (refreshed w + length waiting))).
Proof.
  intros Hc Hw Hr Hfuel. split; intros Hf Hp Hq p prompt Hu Ha.
  - rewrite (video_tab_run _ _ _ _ data Hf), (st_button_pressed _ _ Hp),
      (truthy_nonempty _ Hq). cbv zeta.
    rewrite analyze_video_run. fold p. rewrite Hu, poll_chain by done.
    fold prompt. rewrite Ha. unfold conclude, set_disk, render, record. simpl.
    f_equal. f_equal.
    + apply delete_insert_id, scratch_path_fresh.
    + by rewrite <- !app_assoc.
    + by rewrite <- !app_assoc.
  - rewrite (image_tab_run _ _ _ _ data Hf), (st_button_pressed _ _ Hp),
      (truthy_nonempty _ Hq). cbv zeta.
    rewrite analyze_image_run. fold p. rewrite Hu, poll_chain by done.
    fold prompt. rewrite Ha. unfold conclude, set_disk, render, record. simpl.
    f_equal. f_equal.
    + apply delete_insert_id, scratch_path_fresh.
    + by rewrite <- !app_assoc.
    + by rewrite <- !app_assoc.
Qed.

(** X7. A refresh that raises ends the loop there and then: after the
    rounds for [waiting] and the refused refresh of [last] there is no
    further wait, refresh or agent call; the tab shows the error after the
    preview and the disk is as before. *)
Theorem refused_refresh_ends_the_request fuel ui w data waiting last e :
  chain svc (refreshed w) (waiting ++ [last]) →
  Forall (λ h, state_name h = PROCESSING) (waiting ++ [last]) →
  get_file_reply svc (refreshed w + length waiting) (name last) = Err e →
  length waiting < fuel →
  (video_file ui = Some data → pressed ui = Some AnalyzeVideo →
   video_user_query ui ≠ [] →
   let p := scratch_path ".mp4" w in
   upload_file_reply svc p = Ok (hd last waiting) →
   video_tab svc fuel ui w
   = (Done (),
      World (disk w)
        (page w ++ [StVideo p;
                    StError (lit "An error occurred during analysis: " ++ exn_str e)])
        (trace w ++ UploadFile p :: polling (waiting ++ [last]))
        (refreshed w + S (length waiting))))
  ∧ (image_file ui = Some data → pressed ui = Some AnalyzeImage →
     image_user_query ui ≠ [] →
     let p := scratch_path ".png" w in
     upload_file_reply svc p = Ok (hd last waiting) →
     image_tab svc fuel ui w
     = (Done (),
        World (disk w)
          (page w ++ [StImage p;
                      StError (lit "An error occurred during analysis: " ++ exn_str e)])
          (trace w ++ UploadFile p :: polling (waiting ++ [last]))
          (refreshed w + S (length waiting)))).
Proof.
  intros Hc Hw He Hfuel. split; intros Hf Hp Hq p Hu.
  - rewrite (video_tab_run _ _ _ _ data Hf), (st_button_pressed _ _ Hp),
      (truthy_nonempty _ Hq). cbv zeta.
    rewrite analyze_video_run. fold p. rewrite Hu, (poll_chain_raise _ _ e) by done.
    unfold analysis_error, set_disk, render, record. simpl.
    f_equal. f_equal.
    + apply delete_insert_id, scratch_path_fresh.
    + by rewrite <- !app_assoc.
    + by rewrite <- !app_assoc.
  - rewrite (image_tab_run _ _ _ _ data Hf), (st_button_pressed _ _ Hp),
      (truthy_nonempty _ Hq). cbv zeta.
    rewrite analyze_image_run. fold p. rewrite Hu, (poll_chain_raise _ _ e) by done.
    unfold analysis_error, set_disk, render, record. simpl.
    f_equal. f_equal.
    + apply delete_insert_id, scratch_path_fresh.
    + by rewrite <- !app_assoc.
    + by rewrite <- !app_assoc.
Qed.

End EndToEnd.

(** ** Where an execution can fail to end *)

Section Hang.
Variable svc : services.

Lemma poll_hang fuel : ∀ h w,
  (poll svc fuel h w).1 = Hang →
  state_name h = PROCESSING
  ∧ refreshed (poll svc fuel h w).2 = refreshed w + fuel.
Proof.
  induction fuel as [|fuel IH]; intros h w.
  - destruct (decide (state_name h = PROCESSING)) as [E|E].
    + rewrite poll_out_of_fuel by done. simpl. split; [done|lia].
    + by rewrite poll_settled.
  - destruct (decide (state_name h = PROCESSING)) as [E|E]; [|by rewrite poll_settled].
    rewrite poll_step by done.
    destruct (get_file_reply _ _ _) as [h'|e]; [|done].
    intros H. apply IH in H as [_ ->]. simpl. split; [done|lia].
Qed.

Lemma analyze_video_hang fuel q p w :
  (analyze_video svc fuel q p w).1 = Hang →
  (∃ h0, upload_file_reply svc p = Ok h0 ∧ state_name h0 = PROCESSING)
  ∧ refreshed (analyze_video svc fuel q p w).2 = refreshed w + fuel.
Proof.
  rewrite analyze_video_run.
  destruct (upload_file_reply svc p) as [h0|e]; [|done].
  pose proof (poll_hang fuel h0 (record (UploadFile p) w)) as Hh.
  destruct (poll svc fuel h0 _) as [[h|e|] w2]; simpl in *; [done..|].
  intros _. destruct (Hh eq_refl) as [? ?]. eauto.
Qed.

Lemma analyze_image_hang fuel q p w :
  (analyze_image svc fuel q p w).1 = Hang →
  (∃ h0, upload_file_reply svc p = Ok h0 ∧ state_name h0 = PROCESSING)
  ∧ refreshed (analyze_image svc fuel q p w).2 = refreshed w + fuel.
Proof.
  rewrite analyze_image_run.
  destruct (upload_file_reply svc p) as [h0|e]; [|done].
  pose proof (poll_hang fuel h0 (record (UploadFile p) w)) as Hh.
  destruct (poll svc fuel h0 _) as [[h|e|] w2]; simpl in *; [done..|].
  intros _. destruct (Hh eq_refl) as [? ?]. eauto.
Qed.

Lemma truthy_true_nonempty (q : str) : truthy q = true → q ≠ [].
Proof. by destruct q. Qed.

(** X6. The polling loop is the only place where an execution can fail to
    end.  If an execution of the page has not ended within [fuel] rounds
    of polling, then Analyze Video or Analyze Image was pressed with a
    query, the staging service accepted the upload of the scratch file with
    a handle in state PROCESSING, and it has answered [fuel] refreshes since
    without the loop being left.  In particular an execution for Summarize
    Text, or for no button, always ends. *)
Theorem only_polling_can_hang fuel ui w :
  (page_script svc fuel ui w).1 = Hang →
  (∃ p h0, upload_file_reply svc p = Ok h0 ∧ state_name h0 = PROCESSING
           ∧ (pressed ui = Some AnalyzeVideo ∧ suffix p = ".mp4"
              ∧ video_user_query ui ≠ []
              ∨ pressed ui = Some AnalyzeImage ∧ suffix p = ".png"
                ∧ image_user_query ui ≠ []))
  ∧ refreshed (page_script svc fuel ui w).2 = refreshed w + fuel.
Proof.
  rewrite page_script_run. cbv zeta.
  match goal with |- context [video_tab svc fuel ui ?w0] =>
    change (refreshed w) with (refreshed w0); generalize w0
  end.
  intros w0.
  assert ((video_tab svc fuel ui w0).1 = Hang →
          (∃ p h0, upload_file_reply svc p = Ok h0 ∧ state_name h0 = PROCESSING
                   ∧ pressed ui = Some AnalyzeVideo ∧ suffix p = ".mp4"
                   ∧ video_user_query ui ≠ [])
          ∧ refreshed (video_tab svc fuel ui w0).2 = refreshed w0 + fuel) as Hv.
  { destruct (video_file ui) as [data|] eqn:Hf; [|by unfold video_tab; rewrite Hf].
    rewrite (video_tab_run _ _ _ _ data Hf). cbv zeta.
    destruct (st_button ui AnalyzeVideo) eqn:Hb; [|done].
    destruct (truthy (video_user_query ui)) eqn:Hq; [|done].
    intros H. apply analyze_video_hang in H as [(h0 & Hu & Hs) Hr].
    split; [|exact Hr]. eexists _, h0. split; [exact Hu|].
    split; [done|]. split; [by apply st_button_true|].
    split; [done|]. by apply truthy_true_nonempty. }
  assert (∀ w1, (image_tab svc fuel ui w1).1 = Hang →
          (∃ p h0, upload_file_reply svc p = Ok h0 ∧ state_name h0 = PROCESSING
                   ∧ pressed ui = Some AnalyzeImage ∧ suffix p = ".png"
                   ∧ image_user_query ui ≠ [])
          ∧ refreshed (image_tab svc fuel ui w1).2 = refreshed w1 + fuel) as Hi.
  { intros w1.
    destruct (image_file ui) as [data|] eqn:Hf; [|by unfold image_tab; rewrite Hf].
    rewrite (image_tab_run _ _ _ _ data Hf). cbv zeta.
    destruct (st_button ui AnalyzeImage) eqn:Hb; [|done].
    destruct (truthy (image_user_query ui)) eqn:Hq; [|done].
    intros H. apply analyze_image_hang in H as [(h0 & Hu & Hs) Hr].
    split; [|exact Hr]. eexists _, h0. split; [exact Hu|].
    split; [done|]. split; [by apply st_button_true|].
    split; [done|]. by apply truthy_true_nonempty. }
  destruct (video_tab svc fuel ui w0) as [[[]|e|] w1] eqn:Hvt; simpl in *.
  - specialize (Hi w1).
    destruct (image_tab svc fuel ui w1) as [[[]|e|] w2] eqn:Hit; simpl in *.
    + pose proof (text_tab_disk svc ui w2) as (_ & _ & Hn).
      by destruct (text_tab svc ui w2) as [[[]|e|] w3].
    + done.
    + intros _. destruct (Hi eq_refl) as [(p & h0 & Hu & Hs & Hp & Hsfx & Hq) Hr].
      assert (st_button ui AnalyzeVideo = false) as Hb
        by (by eapply st_button_other).
      destruct (video_tab_idle svc fuel ui w0 Hb) as (w1' & Hv' & _ & Hr1 & _).
      rewrite Hvt in Hv'. injection Hv' as <-.
      split; [eauto 10|]. by rewrite Hr, Hr1.
  - done.
  - intros _. destruct (Hv eq_refl) as [(p & h0 & Hu & Hs & Hp & Hsfx & Hq) Hr].
    split; [eauto 10|done].
Qed.

End Hang.

(** ** The text tab *)

(** X8. Summarize Text with the text the tab works on (typed, or decoded
    from the uploaded file).  A blank text draws the warning and nothing
    else.  Any other text leads to exactly one agent call, without
    attachments, and the tab always ends normally: with the heading
    "Summary Result" and the answer as it came, or, if the agent raises,
    with the error text under the summarization prefix. *)
Theorem summarize_text_outcomes svc ui w text :
  resolves_to ui text → pressed ui = Some SummarizeText →
  let w1 := render (StSubheader (lit "Text Summarization")) w in
  let prompt := summary_prompt (summary_prompt_input ui) text in
  (blank text = true →
   text_tab svc ui w
   = (Done (),
      render (StWarning (lit "Please provide some text or upload a file to summarize."))
             w1))
  ∧ (blank text = false →
     text_tab svc ui w
     = (Done (),
        World (disk w)
          (page w1
             ++ match agent_run_reply svc prompt None None with
                | Ok content => [StSubheader (lit "Summary Result"); StMarkdown content]
                | Err e =>
                  [StError (lit "An error occurred during summarization: "
                              ++ exn_str e)]
                end)
          (trace w ++ [AgentRun prompt None None])
          (refreshed w))).
Proof.
  intros Hres Hp w1 prompt.
  assert (text_tab svc ui w
          = if truthy (strip text)
            then summarize_text svc (summary_prompt_input ui) text w1
            else (Done (),
                  render (StWarning (lit "Please provide some text or upload a file to summarize.")) w1))
    as ->.
  { rewrite text_tab_run, (st_button_pressed _ _ Hp). cbv zeta.
    unfold resolves_to in Hres. destruct (text_file ui) as [data|].
    - by rewrite Hres.
    - by rewrite Hres. }
  rewrite truthy_strip. split; intros ->; [done|]. cbn [negb].
  rewrite summarize_text_run. cbv zeta. fold prompt.
  unfold summarization_error.
  destruct (agent_run_reply svc prompt None None); subst w1;
    unfold render, record; cbn [disk page trace refreshed];
    by rewrite <- ?app_assoc.
Qed.

(** X9. A text file of ASCII bytes is always accepted: it decodes to the
    same characters, so the text tab does not raise on it. *)
Theorem ascii_file_is_accepted (data : bytes) :
  Forall (λ b, (Byte.to_N b < 128)%N) data →
  decode data = Ok (Byte.to_N <$> data)
  ∧ ∀ svc ui w, text_file ui = Some data → (text_tab svc ui w).1 = Done ().
Proof.
  intros Hascii.
  assert (decode data = Ok (Byte.to_N <$> data)) as Hd.
  { unfold decode. induction Hascii as [|b bs Hb _ IH]; [done|].
    rewrite fmap_cons. cbn [decode_N].
    apply N.ltb_lt in Hb. by rewrite Hb, IH. }
  split; [done|]. intros svc ui w Hf.
  rewrite text_tab_run, Hf, Hd. cbv zeta.
  destruct (st_button ui SummarizeText); [|done].
  destruct (truthy (strip _)); [|done].
  rewrite summarize_text_run. cbv zeta. by destruct (agent_run_reply _ _ _ _).
Qed.

(** ** The prompts *)

(** X11. The prompt keeps the query apart from the template: two queries
    give the same video (or image) prompt only if they are the same query,
    and, the instructions being the same, two texts give the same summary
    prompt only if they are the same text. *)
Theorem prompt_determines_the_input :
  (∀ q1 q2, video_analysis_prompt q1 = video_analysis_prompt q2 → q1 = q2)
  ∧ (∀ q1 q2, image_analysis_prompt q1 = image_analysis_prompt q2 → q1 = q2)
  ∧ (∀ instructions t1 t2,
       summary_prompt instructions t1 = summary_prompt instructions t2 → t1 = t2).
Proof.
  split; [|split].
  - intros q1 q2. unfold video_analysis_prompt. intros H.
    repeat (apply app_inv_head in H). by apply app_inv_tail in H.
  - intros q1 q2. unfold image_analysis_prompt. intros H.
    repeat (apply app_inv_head in H). by apply app_inv_tail in H.
  - intros instructions t1 t2. unfold summary_prompt. intros H.
    repeat (apply app_inv_head in H). by apply app_inv_tail in H.
Qed.

(** ** Start of the process *)


(** ** The decoder *)

Lemma div_mod_N (a b : N) :
  (b ≠ 0 → a = b * (a / b) + a mod b ∧ a mod b < b)%N.
Proof.
  intros Hb. split; [by apply N.div_mod|by apply N.mod_upper_bound].
Qed.

Lemma low6_mod b : low6 b = (b mod 64)%N.
Proof. unfold low6. change 0x3F%N with (N.ones 6). by rewrite N.land_ones. Qed.

Lemma land_1F_mod b : N.land b 0x1F = (b mod 32)%N.
Proof. change 0x1F%N with (N.ones 5). by rewrite N.land_ones. Qed.

Lemma land_0F_mod b : N.land b 0x0F = (b mod 16)%N.
Proof. change 0x0F%N with (N.ones 4). by rewrite N.land_ones. Qed.

Lemma land_07_mod b : N.land b 0x07 = (b mod 8)%N.
Proof. change 0x07%N with (N.ones 3). by rewrite N.land_ones. Qed.

Ltac bytes_to_props :=
  unfold cont in *;
  repeat match goal with
         | H : _ && _ = true |- _ => apply andb_true_iff in H as [? ?]
         | H : negb _ = true |- _ => apply negb_true_iff in H
         | H : _ && _ = false |- _ => apply andb_false_iff in H
         | H : (_ <? _)%N = true |- _ => apply N.ltb_lt in H
         | H : (_ <? _)%N = false |- _ => apply N.ltb_ge in H
         | H : (_ <=? _)%N = true |- _ => apply N.leb_le in H
         | H : (_ =? _)%N = true |- _ => apply N.eqb_eq in H
         end;
  repeat match goal with
         | H : _ ∨ _ |- _ => destruct H
         | H : (_ <? _)%N = false |- _ => apply N.ltb_ge in H
         | H : (_ <=? _)%N = false |- _ => apply N.leb_gt in H
         | H : (_ =? _)%N = false |- _ => apply N.eqb_neq in H
         end.

Ltac mod_lia :=
  rewrite ?low6_mod, ?land_1F_mod, ?land_0F_mod, ?land_07_mod;
  repeat match goal with
         | |- context [(?a mod ?b)%N] =>
           let H := fresh in
           pose proof (div_mod_N a b ltac:(done)) as H;
           revert H; generalize (a / b)%N (a mod b)%N; intros ? ? ?
         end;
  lia.

Lemma decode_N_scalar n : ∀ bs s,
  length bs ≤ n → decode_N bs = Ok s → Forall scalar_value s.
Proof.
  induction n as [|n IH]; intros bs s Hlen.
  { destruct bs; [|simpl in Hlen; lia]. by intros [= <-]. }
  destruct bs as [|b0 r0]; [by intros [= <-]|]. cbn [decode_N].
  destruct (b0 <? 0x80)%N eqn:H0.
  { destruct (decode_N r0) as [s0|] eqn:Hd; [|done]. intros [= <-].
    constructor; [|apply (IH r0); [simpl in Hlen; lia|done]].
    bytes_to_props. unfold scalar_value. lia. }
  destruct (b0 <? 0xC2)%N eqn:H1; [done|].
  destruct (b0 <? 0xE0)%N eqn:H2.
  { destruct r0 as [|b1 r1]; [done|].
    destruct (cont b1) eqn:C1; [|done].
    destruct (decode_N r1) as [s0|] eqn:Hd; [|done]. intros [= <-].
    constructor; [|apply (IH r1); [simpl in Hlen; lia|done]].
    bytes_to_props. unfold scalar_value. split; mod_lia. }
  destruct (b0 <? 0xF0)%N eqn:H3.
  { destruct r0 as [|b1 r1]; [done|].
    match goal with |- context [if ?c then _ else _] => destruct c eqn:C1 end; [|done].
    destruct r1 as [|b2 r2]; [done|].
    destruct (cont b2) eqn:C2; [|done].
    destruct (decode_N r2) as [s0|] eqn:Hd; [|done]. intros [= <-].
    constructor; [|apply (IH r2); [simpl in Hlen; lia|done]].
    bytes_to_props; unfold scalar_value; (split; mod_lia). }
  destruct (b0 <? 0xF5)%N eqn:H4; [|done].
  destruct r0 as [|b1 r1]; [done|].
  match goal with |- context [if ?c then _ else _] => destruct c eqn:C1 end; [|done].
  destruct r1 as [|b2 r2]; [done|].
  destruct (cont b2) eqn:C2; [|done].
  destruct r2 as [|b3 r3]; [done|].
  destruct (cont b3) eqn:C3; [|done].
  destruct (decode_N r3) as [s0|] eqn:Hd; [|done]. intros [= <-].
  constructor; [|apply (IH r3); [simpl in Hlen; lia|done]].
  bytes_to_props; unfold scalar_value; (split; mod_lia).
Qed.

(** X10. What the decoder accepts is Unicode text: every code point of a
    decoded file is a scalar value, at most U+10FFFF and no surrogate. *)
Theorem decoded_text_is_unicode (data : bytes) (text : str) :
  decode data = Ok text → Forall scalar_value text.
Proof. unfold decode. by apply (decode_N_scalar (length (Byte.to_N <$> data))). Qed.

(** ** Which handle a refresh asks about *)

(** X14. Whatever the staging service answers, each refresh of the loop
    asks about the handle received last: the first about the handle the
    loop was entered with, every later one about the handle the refresh
    before it returned. *)
Theorem refresh_follows_the_latest_handle svc fuel h w :
  ∃ hs, trace (poll svc fuel h w).2 = trace w ++ polling hs
        ∧ head hs = (if decide (hs = []) then None else Some h)
        ∧ chain svc (refreshed w) hs.
Proof.
  revert h w. induction fuel as [|fuel IH]; intros h w.
  - exists []. simpl. case_decide; simpl; by rewrite app_nil_r.
  - destruct (decide (state_name h = PROCESSING)) as [E|E].
    + rewrite poll_step by done.
      destruct (get_file_reply _ _ _) as [h'|e] eqn:Hg.
      * destruct (IH h' (next_refresh (record (GetFile (name h)) (record (Sleep 1) w))))
          as (hs & -> & Hhd & Hch).
        exists (h :: hs). simpl. rewrite <- !app_assoc. simpl.
        split; [done|]. split; [done|].
        destruct hs as [|h1 hs]; [done|]. simpl in Hhd. injection Hhd as ->.
        by split.
      * exists [h]. simpl. by rewrite <- !app_assoc.
    + rewrite poll_settled by done. exists []. simpl. by rewrite app_nil_r.
Qed.

(** ** The frame of the page *)

Section PageFrame.
Variable svc : services.







End PageFrame.

(** ** Instances *)

Lemma X1_witness :
  disk More.used_world !! More.old_scratch = Some Sample.fake_png
  ∧ disk (page_script Stub.staging_down 0 Sample.video_with_question
            More.used_world).2 !! More.old_scratch
    = Some Sample.fake_png.
Proof.
  split; [by vm_compute|].
  apply (page_script_keeps_existing_files Stub.staging_down 0
           Sample.video_with_question More.used_world More.old_scratch
           Sample.fake_png).
  by vm_compute.
Defined.

Lemma X2_witness :
  (video_tab Stub.staging_down 0 Sample.video_with_question More.used_world).1
  = Done ()
  ∧ disk (video_tab Stub.staging_down 0 Sample.video_with_question
            More.used_world).2
    = disk More.used_world.
Proof.
  apply (proj1 (ended_request_restores_the_disk Stub.staging_down 0
                  Sample.video_with_question More.used_world Stub.clip));
    [reflexivity|reflexivity|discriminate|by vm_compute].
Defined.

Lemma X3_witness :
  video_tab Stub.slow_staging 2 Sample.video_with_question Stub.empty_world
  = (Done (),
     World (disk Stub.empty_world)
       (page Stub.empty_world
          ++ [StVideo (scratch_path ".mp4" Stub.empty_world);
              StSubheader (lit "Analysis Result"); StMarkdown Stub.a_red_circle])
       (trace Stub.empty_world
          ++ UploadFile (scratch_path ".mp4" Stub.empty_world)
             :: polling [Stub.processing_handle; Stub.processing_handle]
             ++ [AgentRun (video_analysis_prompt Stub.what_is_shown)
                          (Some [Stub.active_handle]) None])
       (refreshed Stub.empty_world + 2)).
Proof.
  apply (proj1 (analysis_shows_the_answer Stub.slow_staging 2
                  Sample.video_with_question Stub.empty_world Stub.clip
                  [Stub.processing_handle; Stub.processing_handle]
                  Stub.active_handle Stub.a_red_circle
                  ltac:(simpl; repeat split; reflexivity)
                  ltac:(repeat constructor)
                  ltac:(discriminate)
                  ltac:(simpl; lia)));
    [reflexivity|reflexivity|discriminate|reflexivity|reflexivity].
Defined.

Lemma X6_witness :
  (page_script Stub.stuck_staging 3 Sample.video_with_question Stub.empty_world).1
  = Hang
  ∧ refreshed (page_script Stub.stuck_staging 3 Sample.video_with_question
                 Stub.empty_world).2
    = refreshed Stub.empty_world + 3.
Proof.
  assert ((page_script Stub.stuck_staging 3 Sample.video_with_question
             Stub.empty_world).1 = Hang) as H by (by vm_compute).
  split; [exact H|].
  apply (only_polling_can_hang Stub.stuck_staging 3 Sample.video_with_question
           Stub.empty_world H).
Defined.

Lemma X7_witness :
  video_tab More.flaky_staging 1 Sample.video_with_question Stub.empty_world
  = (Done (),
     World (disk Stub.empty_world)
       (page Stub.empty_world
          ++ [StVideo (scratch_path ".mp4" Stub.empty_world);
              StError (lit "An error occurred during analysis: "
                         ++ exn_str More.flaky)])
       (trace Stub.empty_world
          ++ UploadFile (scratch_path ".mp4" Stub.empty_world)
             :: polling ([] ++ [Stub.processing_handle]))
       (refreshed Stub.empty_world + 1)).
Proof.
  apply (proj1 (refused_refresh_ends_the_request More.flaky_staging 1
                  Sample.video_with_question Stub.empty_world Stub.clip
                  [] Stub.processing_handle More.flaky
                  ltac:(exact I)
                  ltac:(repeat constructor)
                  ltac:(reflexivity)
                  ltac:(simpl; lia)));
    [reflexivity|reflexivity|discriminate|reflexivity].
Defined.

Lemma X8_witness :
  blank (lit "some text") = false
  ∧ text_tab More.agent_down More.typed_only Stub.empty_world
    = (Done (),
       World ∅
         [StSubheader (lit "Text Summarization");
          StError (lit "An error occurred during summarization: "
                     ++ lit "503 try again later")]
         [AgentRun (summary_prompt [] (lit "some text")) None None]
         0).
Proof.
  split; [reflexivity|].
  apply (proj2 (summarize_text_outcomes More.agent_down More.typed_only
                  Stub.empty_world (lit "some text") eq_refl eq_refl)).
  reflexivity.
Defined.

Lemma X9_witness :
  decode Sample.notes_txt = Ok (Byte.to_N <$> Sample.notes_txt)
  ∧ ∀ svc ui w, text_file ui = Some Sample.notes_txt →
                (text_tab svc ui w).1 = Done ().
Proof.
  apply (ascii_file_is_accepted Sample.notes_txt).
  repeat constructor.
Defined.

Lemma X10_witness :
  decode [xe2; x82; xac; xf0; x9f; x8e; xa5]%byte = Ok [0x20AC; 0x1F3A5]%N
  ∧ Forall scalar_value [0x20AC; 0x1F3A5]%N.
Proof.
  split; [reflexivity|].
  apply (decoded_text_is_unicode [xe2; x82; xac; xf0; x9f; x8e; xa5]%byte).
  reflexivity.
Defined.

Lemma X11_witness :
  video_analysis_prompt Stub.what_is_shown
  = video_analysis_prompt (lit "What is" ++ lit " shown?")
  ∧ Stub.what_is_shown = lit "What is" ++ lit " shown?".
Proof.
  split; [reflexivity|].
  apply (proj1 prompt_determines_the_input). reflexivity.
Defined.

Lemma X13_witness :
  disk (page_script Stub.slow_staging 0 More.typed_only More.used_world).2
  = disk More.used_world
  ∧ (page_script Stub.slow_staging 0 More.typed_only More.used_world).1 ≠ Hang.
Proof.
  destruct (no_media_no_disk_no_staging Stub.slow_staging 0 More.typed_only
              More.used_world eq_refl eq_refl) as (H1 & _ & H3 & _).
  split; [exact H1|exact H3].
Defined.

(** The key of the environment wins over the [.env] file. *)
Example environment_key_wins :
  Startup.api_key (Startup.configure More.dotenv_file More.both_set)
  = Some More.env_key.
Proof. by vm_compute. Qed.

